(** * user_session.py: sessionization and two-tier feature aggregation

    A shallow embedding of [AdvancedRetailAnalyticsPipeline]
    (src/user_session.py).  A Spark DataFrame is a list of rows; the
    Spark column functions the source calls are collected in
    [Module Spark] with the semantics Spark gives them, and each method of
    the class is a definition that keeps the method's name and follows
    its column-by-column construction. *)

From Stdlib Require Import ZArith QArith Lia Ascii.
From stdpp Require Import base list strings pretty sorting.

Local Open Scope Z_scope.

(** ** Errors raised by the pipeline *)

Inductive Error : Type :=
  | KeyError (key : string)
  | AnalysisException (msg : string).

Inductive Result (A : Type) : Type :=
  | Ok (a : A)
  | Err (e : Error).
Arguments Ok {A} a.
Arguments Err {A} e.

Global Instance result_ret : MRet Result := λ A a, Ok a.

Global Instance result_bind : MBind Result := λ A B f m,
  match m with
  | Ok a => f a
  | Err e => Err e
  end.

(** ** Spark column functions *)

Module Spark.

(** A [TimestampType] value is a number of microseconds since the epoch;
    the session time zone is UTC (line 32). *)
Definition MICROS_PER_SECOND : Z := 1000000.
Definition MICROS_PER_DAY : Z := 86400 * MICROS_PER_SECOND.

(** [unix_timestamp(col)] on a timestamp: whole seconds, by the JVM's
    long division. *)
Definition unix_timestamp (ts : Z) : Z := ts `quot` MICROS_PER_SECOND.

(** [lag(col, 1).over(w)]: the value of the row before, along the
    ordered partition; null on the first row. *)
Definition lag {A} (col : list A) : list (option A) :=
  take (length col) (None :: (Some <$> col)).

(** Arithmetic and comparison are null-propagating. *)
Definition minus (a b : option Z) : option Z :=
  match a, b with
  | Some x, Some y => Some (x - y)
  | _, _ => None
  end.

Definition gt (a : option Z) (b : Z) : option bool :=
  (λ x, bool_decide (x > b)) <$> a.

Definition isNull {A} (a : option A) : bool :=
  match a with None => true | Some _ => false end.

(** Three-valued [|]. *)
Definition or (a b : option bool) : option bool :=
  match a, b with
  | Some true, _ | _, Some true => Some true
  | Some false, Some false => Some false
  | _, _ => None
  end.

(** [when(c, v).otherwise(e)]: [v] where [c] is true, [e] where it is
    false or null. *)
Definition when_otherwise {A} (c : option bool) (v e : A) : A :=
  match c with
  | Some true => v
  | _ => e
  end.

Definition Zsum (l : list Z) : Z := foldr Z.add 0 l.

(** [sum(c).over(Window.partitionBy(..).orderBy(k))].  A window with an
    ordering and no explicit frame has the frame RANGE BETWEEN UNBOUNDED
    PRECEDING AND CURRENT ROW: the sum at a row with key [k] runs over
    every row of the partition whose key is at most [k], the row's peers
    included.  [keyed] pairs each row's ordering key with its value. *)
Definition sum_over (keyed : list (Z * Z)) (k : Z) : Z :=
  Zsum (snd <$> filter (λ r, r.1 ≤ k) keyed).

Definition wrap_long (z : Z) : Z := (z + 2 ^ 63) `mod` 2 ^ 64 - 2 ^ 63.

(** [sum(col)] of a bigint column in a [groupBy]: a bigint.  Each addition
    is a 64-bit addition and wraps around beyond the range; that is Spark's
    behaviour with ANSI mode off, the default of Spark 3 (the session sets
    no ANSI option, lines 29-33).  With ANSI mode on the same overflow
    raises instead; the two agree wherever the sum stays in range. *)
Definition sum_long (col : list Z) : Z :=
  foldr (λ x acc, wrap_long (x + acc)) 0 col.

(** [concat] of a long column with string literals: the long is cast to
    its decimal rendering. *)
Definition cast_string (n : Z) : string := pretty n.

(** [avg(col)]: the mean of the non-null values of the group, null when
    there is none.  Spark evaluates it in double precision; the model
    keeps the exact rational. *)
Definition avg (col : list (option Z)) : option Q :=
  match omap id col with
  | [] => None
  | xs => Some (inject_Z (Zsum xs) / inject_Z (Z.of_nat (length xs)))%Q
  end.

(** [col / lit]: null-propagating division. *)
Definition divide (a : option Q) (b : Z) : option Q :=
  (λ x, x / inject_Z b)%Q <$> a.

(** [hour(col)] and [dayofweek(col)] of a timestamp in the UTC session
    time zone.  [dayofweek] numbers the days 1 = Sunday .. 7 = Saturday;
    the epoch day 0 (1970-01-01) is a Thursday. *)
Definition hour (ts : Z) : Z := (ts `div` (3600 * MICROS_PER_SECOND)) `mod` 24.
Definition epoch_day (ts : Z) : Z := ts `div` MICROS_PER_DAY.
Definition dayofweek (ts : Z) : Z := (epoch_day ts + 4) `mod` 7 + 1.

(** Column types, and the values a column of each type holds. *)
Inductive DataType : Type :=
  | StringType
  | LongType
  | TimestampType
  | ArrayType (elementType : DataType).

Fixpoint value (t : DataType) : Type :=
  match t with
  | StringType => string
  | LongType | TimestampType => Z
  | ArrayType e => list (value e)
  end.

Fixpoint is_prefix (p s : string) : bool :=
  match p, s with
  | EmptyString, _ => true
  | String a p', String b s' => bool_decide (a = b) && is_prefix p' s'
  | String _ _, EmptyString => false
  end.

Fixpoint is_substring (p s : string) : bool :=
  is_prefix p s ||
  match s with
  | EmptyString => false
  | String _ s' => is_substring p s'
  end.

(** [Column.contains(other)] builds the string predicate [Contains]
    ("a boolean Column based on a string match").  The analyzer resolves
    it on a string column only: no implicit cast takes an array to a
    string, so on any other column [withColumn] raises an
    [AnalysisException] when the expression is resolved, before a row is
    read. *)
Definition contains (t : DataType) : Result (value t → string → bool) :=
  match t with
  | StringType => Ok (λ s other, is_substring other s)
  | _ => Err (AnalysisException "DATATYPE_MISMATCH.UNEXPECTED_INPUT_TYPE")
  end.

(** [array_contains(col, value)], the membership test on an array
    column; the pipeline does not call it. *)
Definition array_contains (xs : list string) (x : string) : bool :=
  bool_decide (x ∈ xs).

End Spark.

(** ** Data model *)

(** A row of the cleaned DataFrame (lines 46-57): [user_id] and
    [event_timestamp] are non-null after [na.drop]; the other columns stay
    nullable.  [price] is a double that no expression of the pipeline
    reads; it is carried as its binary64 bit pattern. *)
Record Event : Type := {
  event_type : option string;
  product_id : option Z;
  category_id : option Z;
  category_code : option string;
  brand : option string;
  price : option Z;
  user_id : Z;
  event_timestamp : Z
}.

Global Instance Event_eq_dec : EqDecision Event.
Proof. solve_decision. Defined.

(** A row of [df_sessionized]: the event's columns and [session_id]. *)
Record SessionizedEvent : Type := {
  sz_event : Event;
  session_id : string
}.

Global Instance SessionizedEvent_eq_dec : EqDecision SessionizedEvent.
Proof. solve_decision. Defined.

(** The keys of [self.config] that the pipeline reads after start-up; a
    field is [None] when its key is absent from the YAML document. *)
Record Config : Type := {
  session_timeout_seconds : option Z;
  output_path_session_features : option string;
  output_path_user_summary : option string
}.

Definition config_get {A} (key : string) (v : option A) : Result A :=
  match v with
  | Some x => Ok x
  | None => Err (KeyError key)
  end.

(** ** [_sessionize_events] (lines 62-79) *)

(** [Window.partitionBy("user_id").orderBy("event_timestamp")]: one
    partition per user, each ordered by timestamp. *)
Definition ts_le (a b : Event) : Prop := event_timestamp a ≤ event_timestamp b.

Global Instance ts_le_dec a b : Decision (ts_le a b).
Proof. unfold ts_le. apply _. Defined.

Definition partition_of (u : Z) (df : list Event) : list Event :=
  filter (λ e, user_id e = u) df.

Definition user_window (df : list Event) : list (list Event) :=
  (λ u, merge_sort ts_le (partition_of u df)) <$> remove_dups (user_id <$> df).

(** The columns added along one ordered partition. *)
Definition previous_timestamp (part : list Event) : list (option Z) :=
  Spark.lag (event_timestamp <$> part).

Definition time_diff (part : list Event) : list (option Z) :=
  zip_with
    (λ e prev, Spark.minus (Some (Spark.unix_timestamp (event_timestamp e)))
                           (Spark.unix_timestamp <$> prev))
    part (previous_timestamp part).

Definition flag_of (session_timeout : Z) (d : option Z) : Z :=
  Spark.when_otherwise
    (Spark.or (Spark.gt d session_timeout) (Some (Spark.isNull d))) 1 0.

Definition new_session_flag (session_timeout : Z) (part : list Event) : list Z :=
  flag_of session_timeout <$> time_diff part.

(** The rows the running sum ranges over: ordering key and flag. *)
Definition keyed_flags (session_timeout : Z) (part : list Event) : list (Z * Z) :=
  zip (event_timestamp <$> part) (new_session_flag session_timeout part).

Definition session_group (session_timeout : Z) (part : list Event) : list Z :=
  (λ e, Spark.sum_over (keyed_flags session_timeout part) (event_timestamp e)) <$> part.

Definition make_session_id (u g : Z) : string :=
  Spark.cast_string u +:+ "_" +:+ Spark.cast_string g.

Definition sessionize_partition (session_timeout : Z) (part : list Event)
    : list SessionizedEvent :=
  zip_with
    (λ e g, {| sz_event := e; session_id := make_session_id (user_id e) g |})
    part (session_group session_timeout part).

Definition _sessionize_events (self : Config) (df : list Event)
    : Result (list SessionizedEvent) :=
  session_timeout ← config_get "session_timeout_seconds" (session_timeout_seconds self);
  Ok (user_window df ≫= sessionize_partition session_timeout).

(** The rows of one user in a sessionized DataFrame, in its order. *)
Definition user_rows (u : Z) (out : list SessionizedEvent) : list SessionizedEvent :=
  filter (λ r, user_id (sz_event r) = u) out.

(** The rows of one session. *)
Definition session_of (s : string) (rows : list SessionizedEvent) : list SessionizedEvent :=
  filter (λ r, session_id r = s) rows.

(** ** [_aggregate_to_session_features] (lines 81-107) *)

(** A row of [session_features_df], the result of
    [groupBy("user_id", "session_id").agg(..)] (lines 85-92). *)
Record SessionAgg : Type := {
  sa_user_id : Z;
  sa_session_id : string;
  session_start_time : Z;
  session_end_time : Z;
  total_events : Z;
  distinct_products_viewed : Z;
  unique_event_types : list string
}.

(** A row of [final_df]: the aggregated columns and the four derived
    ones (lines 95-104). *)
Record SessionFeatures : Type := {
  sf_agg : SessionAgg;
  session_duration_seconds : Z;
  hour_of_day : Z;
  day_of_week : Z;
  funnel_stage : string
}.

Definition session_key (r : SessionizedEvent) : Z * string :=
  (user_id (sz_event r), session_id r).

Definition session_rows (k : Z * string) (df : list SessionizedEvent)
    : list SessionizedEvent :=
  filter (λ r, session_key r = k) df.

(** The aggregates of one group; a group of [groupBy] has at least one
    row.  [countDistinct] and [collect_set] skip nulls. *)
Definition aggregate_group (k : Z * string) (rows : list SessionizedEvent)
    : option SessionAgg :=
  match event_timestamp ∘ sz_event <$> rows with
  | [] => None
  | t :: ts =>
      Some {| sa_user_id := k.1;
              sa_session_id := k.2;
              session_start_time := foldr Z.min t ts;
              session_end_time := foldr Z.max t ts;
              total_events := Z.of_nat (length rows);
              distinct_products_viewed :=
                Z.of_nat (length (remove_dups (omap (product_id ∘ sz_event) rows)));
              unique_event_types :=
                remove_dups (omap (event_type ∘ sz_event) rows) |}
  end.

Definition session_features_df (df : list SessionizedEvent) : list SessionAgg :=
  omap (λ k, aggregate_group k (session_rows k df)) (remove_dups (session_key <$> df)).

(** The [when] chain of lines 100-103 over a membership test [has]. *)
Definition funnel_stage_chain (has : list string → string → bool)
    (types : list string) : string :=
  Spark.when_otherwise (Some (has types "purchase")) "completed_purchase"
    (Spark.when_otherwise (Some (has types "cart")) "added_to_cart"
       (Spark.when_otherwise (Some (has types "view")) "view_only" "other")).

(** The [funnel_stage] column as the source writes it:
    [col("unique_event_types").contains(..)] on the array that
    [collect_set] produced. *)
Definition funnel_stage_column : Result (list string → string) :=
  has ← Spark.contains (Spark.ArrayType Spark.StringType);
  Ok (funnel_stage_chain has).

Definition session_duration_column (r : SessionAgg) : Z :=
  Spark.unix_timestamp (session_end_time r) - Spark.unix_timestamp (session_start_time r).

Definition hour_of_day_column (r : SessionAgg) : Z :=
  Spark.hour (session_start_time r).

Definition day_of_week_column (r : SessionAgg) : Z :=
  Spark.dayofweek (session_start_time r).

Definition with_features (funnel : list string → string) (r : SessionAgg)
    : SessionFeatures :=
  {| sf_agg := r;
     session_duration_seconds := session_duration_column r;
     hour_of_day := hour_of_day_column r;
     day_of_week := day_of_week_column r;
     funnel_stage := funnel (unique_event_types r) |}.

Definition _aggregate_to_session_features (df : list SessionizedEvent)
    : Result (list SessionFeatures) :=
  funnel ← funnel_stage_column;
  Ok (with_features funnel <$> session_features_df df).

(** ** [_aggregate_to_user_features] (lines 109-130) *)

Record UserSummary : Type := {
  us_user_id : Z;
  total_sessions : Z;
  total_events_lifetime : Z;
  avg_session_duration_seconds : option Q;
  total_purchase_sessions : Z;
  avg_time_between_sessions_sec : option Q;
  avg_time_between_sessions_hours : option Q
}.

Definition sf_user_id (s : SessionFeatures) : Z := sa_user_id (sf_agg s).
Definition sf_session_id (s : SessionFeatures) : string := sa_session_id (sf_agg s).
Definition sf_start (s : SessionFeatures) : Z := session_start_time (sf_agg s).

Definition sf_key (s : SessionFeatures) : Z * string := (sf_user_id s, sf_session_id s).

Definition start_le (a b : SessionFeatures) : Prop := sf_start a ≤ sf_start b.

Global Instance start_le_dec a b : Decision (start_le a b).
Proof. unfold start_le. apply _. Defined.

Definition sessions_of (u : Z) (df : list SessionFeatures) : list SessionFeatures :=
  filter (λ s, sf_user_id s = u) df.

(** [Window.partitionBy("user_id").orderBy("session_start_time")]. *)
Definition ordered_sessions (u : Z) (df : list SessionFeatures) : list SessionFeatures :=
  merge_sort start_le (sessions_of u df).

Definition previous_session_start (part : list SessionFeatures) : list (option Z) :=
  Spark.lag (sf_start <$> part).

(** The argument of the last [avg] (line 126), row by row. *)
Definition start_gap (part : list SessionFeatures) : list (option Z) :=
  zip_with
    (λ s prev, Spark.minus (Some (Spark.unix_timestamp (sf_start s)))
                           (Spark.unix_timestamp <$> prev))
    part (previous_session_start part).

Definition purchase_flag (s : SessionFeatures) : Z :=
  Spark.when_otherwise
    (Some (bool_decide (funnel_stage s = "completed_purchase"))) 1 0.

Definition user_summary (u : Z) (part : list SessionFeatures) : UserSummary :=
  let sec := Spark.avg (start_gap part) in
  {| us_user_id := u;
     total_sessions := Z.of_nat (length (sf_session_id <$> part));
     total_events_lifetime := Spark.sum_long (total_events ∘ sf_agg <$> part);
     avg_session_duration_seconds := Spark.avg (Some ∘ session_duration_seconds <$> part);
     total_purchase_sessions := Spark.Zsum (purchase_flag <$> part);
     avg_time_between_sessions_sec := sec;
     avg_time_between_sessions_hours := Spark.divide sec 3600 |}.

Definition _aggregate_to_user_features (session_features : list SessionFeatures)
    : list UserSummary :=
  (λ u, user_summary u (ordered_sessions u session_features))
    <$> remove_dups (sf_user_id <$> session_features).

(** ** [run] (lines 132-162) *)

(** The Spark actions of [run], in the order they are executed; every
    other step only extends a lazy query plan. *)
Inductive Action : Type :=
  | Count (n : nat)
  | WriteSessionFeatures (path : string) (rows : list SessionFeatures)
  | WriteUserSummary (path : string) (rows : list UserSummary)
  | ShowSessionFeatures (rows : list SessionFeatures)
  | ShowUserSummary (rows : list UserSummary).

(** A run: the actions executed so far and the outcome. *)
Record Run (A : Type) : Type := MkRun {
  actions : list Action;
  outcome : Result A
}.
Arguments MkRun {A} actions outcome.
Arguments actions {A} r.
Arguments outcome {A} r.

Global Instance run_ret : MRet Run := λ A a, MkRun [] (Ok a).

Global Instance run_bind : MBind Run := λ A B f m,
  match outcome m with
  | Ok a => MkRun (actions m ++ actions (f a)) (outcome (f a))
  | Err e => MkRun (actions m) (Err e)
  end.

Definition lift {A} (r : Result A) : Run A := MkRun [] r.
Definition act (a : Action) : Run unit := MkRun [a] (Ok ()).

(** [cleaned_df] stands for the result of [_load_and_clean_data]. *)
Definition run (self : Config) (cleaned_df : list Event) : Run unit :=
  sessionized_events_df ← lift (_sessionize_events self cleaned_df);
  _ ← act (Count (length sessionized_events_df));
  session_features ← lift (_aggregate_to_session_features sessionized_events_df);
  session_features_output_path ←
    lift (config_get "session_features" (output_path_session_features self));
  _ ← act (WriteSessionFeatures session_features_output_path session_features);
  let user_summary_df := _aggregate_to_user_features session_features in
  user_summary_output_path ←
    lift (config_get "user_summary" (output_path_user_summary self));
  _ ← act (WriteUserSummary user_summary_output_path user_summary_df);
  _ ← act (ShowSessionFeatures (take 10 session_features));
  act (ShowUserSummary (take 10 user_summary_df)).

(** ** The specification's reading of the inter-session average *)

(** The gaps between each session start and the one before, in seconds,
    over the starts in ascending order; the first session has none. *)
Fixpoint spec_gaps (starts : list Z) : list Z :=
  match starts with
  | s0 :: (s1 :: _) as rest =>
      (Spark.unix_timestamp s1 - Spark.unix_timestamp s0) :: spec_gaps rest
  | _ => []
  end.

(** Their arithmetic mean, divided by 3600. *)
Definition spec_avg_time_between_sessions_hours (starts : list Z) : Q :=
  ((inject_Z (Spark.Zsum (spec_gaps starts))
    / inject_Z (Z.of_nat (length (spec_gaps starts)))) / inject_Z 3600)%Q.

(** ** Sample data *)

Definition ev (u t : Z) (ty : string) : Event :=
  {| event_type := Some ty; product_id := None; category_id := None;
     category_code := None; brand := None; price := None;
     user_id := u; event_timestamp := t * Spark.MICROS_PER_SECOND |}.

Definition cfg (t : option Z) : Config :=
  {| session_timeout_seconds := t;
     output_path_session_features := Some "out/session_features";
     output_path_user_summary := Some "out/user_summary" |}.

Definition sz (e : Event) (sid : string) : SessionizedEvent :=
  {| sz_event := e; session_id := sid |}.

Definition sf (u : Z) (sid : string) (start stop n : Z) (types : list string)
    (stage : string) : SessionFeatures :=
  with_features (λ _, stage)
    {| sa_user_id := u; sa_session_id := sid;
       session_start_time := start * Spark.MICROS_PER_SECOND;
       session_end_time := stop * Spark.MICROS_PER_SECOND;
       total_events := n; distinct_products_viewed := 0;
       unique_event_types := types |}.

(** User 1 at 0 s, 30 s and 7200 s, user 2 at 5 s, in arrival order. *)
Definition sample_events : list Event :=
  [ev 1 7200 "purchase"; ev 1 0 "view"; ev 2 5 "view"; ev 1 30 "cart"].

Definition sample_sessionized : list SessionizedEvent :=
  [sz (ev 2 5 "view") "2_1"; sz (ev 1 0 "view") "1_1";
   sz (ev 1 30 "cart") "1_1"; sz (ev 1 7200 "purchase") "1_2"].

(** Two events of one user, one second apart. *)
Definition close_events : list Event := [ev 1 0 "view"; ev 1 1 "cart"].

(** Session features of user 1 with starts 7170 s apart, and of user 2
    with one session. *)
Definition sample_sessions : list SessionFeatures :=
  [sf 1 "1_2" 7170 7170 1 ["purchase"] "completed_purchase";
   sf 2 "2_1" 5 5 1 ["view"] "view_only";
   sf 1 "1_1" 0 30 2 ["view"; "cart"] "added_to_cart"].

(** The summaries of users 1 and 2 over [sample_sessions]. *)
Definition sample_summary_1 : UserSummary :=
  {| us_user_id := 1; total_sessions := 2; total_events_lifetime := 3;
     avg_session_duration_seconds := Some (30 # 2)%Q;
     total_purchase_sessions := 1;
     avg_time_between_sessions_sec := Some (7170 # 1)%Q;
     avg_time_between_sessions_hours := Some (7170 # 3600)%Q |}.

Definition sample_summary_2 : UserSummary :=
  {| us_user_id := 2; total_sessions := 1; total_events_lifetime := 1;
     avg_session_duration_seconds := Some (0 # 1)%Q;
     total_purchase_sessions := 0;
     avg_time_between_sessions_sec := None;
     avg_time_between_sessions_hours := None |}.

(** ** Auxiliary definitions for the proofs *)

(** The flag column as a scan over the timestamps of an ordered
    partition, carrying the timestamp of the row before. *)
Fixpoint flags_from (session_timeout : Z) (prev : option Z) (ts : list Z) : list Z :=
  match ts with
  | [] => []
  | t :: ts' =>
      flag_of session_timeout
        (Spark.minus (Some (Spark.unix_timestamp t)) (Spark.unix_timestamp <$> prev))
      :: flags_from session_timeout (Some t) ts'
  end.

(** The session number of a timestamp [k] in a partition with timestamps
    [ts], the row before the partition having timestamp [prev]. *)
Definition group_from (session_timeout : Z) (prev : option Z) (ts : list Z) (k : Z) : Z :=
  Spark.sum_over (zip ts (flags_from session_timeout prev ts)) k.

(** The output row of an event, computed from the event's partition. *)
Definition annotate (session_timeout : Z) (df : list Event) (e : Event)
    : SessionizedEvent :=
  {| sz_event := e;
     session_id :=
       make_session_id (user_id e)
         (group_from session_timeout None
            (event_timestamp <$> merge_sort ts_le (partition_of (user_id e) df))
            (event_timestamp e)) |}.

(** ** [_load_and_clean_data] (lines 38-60) *)

(** A row as [spark.read.csv] returns it under the schema of lines 46-51:
    every column is nullable, [event_time] is still a string. *)
Record RawEvent : Type := {
  raw_event_time : option string;
  raw_event_type : option string;
  raw_product_id : option Z;
  raw_category_id : option Z;
  raw_category_code : option string;
  raw_brand : option string;
  raw_price : option Z;
  raw_user_id : option Z
}.

(** The method returns the cleaned DataFrame or leaves through
    [sys.exit(1)] (line 44). *)
Inductive Loaded : Type :=
  | SystemExit (code : Z)
  | Cleaned (df : list Event).

(** [limit(1000000)] (line 53). *)
Definition ROW_LIMIT : nat := Z.to_nat 1000000.

Section load_and_clean.

(** [to_timestamp(col, "yyyy-MM-dd HH:mm:ss 'UTC'")] on a non-null
    string: the timestamp in microseconds, or null where the text does not
    match the pattern. *)
Variable to_timestamp : string → option Z.

(** [df.limit(n)]: [n] rows of the DataFrame, all of them when it has
    fewer; which rows, Spark does not promise. *)
Variable limit : nat → list RawEvent → list RawEvent.

(** Lines 55-57 on one row: the parsed [event_timestamp] is added, the
    row is dropped when [user_id] or [event_timestamp] is null, and
    [event_time] is dropped. *)
Definition clean_row (r : RawEvent) : option Event :=
  ts ← raw_event_time r ≫= to_timestamp;
  u ← raw_user_id r;
  Some {| event_type := raw_event_type r;
          product_id := raw_product_id r;
          category_id := raw_category_id r;
          category_code := raw_category_code r;
          brand := raw_brand r;
          price := raw_price r;
          user_id := u;
          event_timestamp := ts |}.

(** [source_path] is [config["data"]["source_path"]], [None] when the key
    is absent; [files] gives the rows of the CSV file at a path, [None]
    when no file exists there. *)
Definition _load_and_clean_data (source_path : option string)
    (files : string → option (list RawEvent)) : Result Loaded :=
  path ← config_get "source_path" source_path;
  match files path with
  | None => Ok (SystemExit 1)
  | Some rows => Ok (Cleaned (omap clean_row (limit ROW_LIMIT rows)))
  end.

End load_and_clean.

(** ** [run] from its first line *)

(** How [run] ends: an exception, [sys.exit], or its last line. *)
Inductive Ending : Type :=
  | Raised (e : Error)
  | Exited (code : Z)
  | Returned.

Record WholeRun : Type := MkWholeRun {
  whole_actions : list Action;
  ending : Ending
}.

(** Lines 132-162 with line 136: [_load_and_clean_data] first, then the
    rest of [run] on the cleaned DataFrame.  Reading the CSV file under a
    given schema and cleaning it only build a query plan. *)
Definition run_from_source (to_timestamp : string → option Z)
    (limit : nat → list RawEvent → list RawEvent)
    (source_path : option string) (files : string → option (list RawEvent))
    (self : Config) : WholeRun :=
  match _load_and_clean_data to_timestamp limit source_path files with
  | Err e => MkWholeRun [] (Raised e)
  | Ok (SystemExit code) => MkWholeRun [] (Exited code)
  | Ok (Cleaned cleaned_df) =>
      let r := run self cleaned_df in
      MkWholeRun (actions r)
        (match outcome r with Ok _ => Returned | Err e => Raised e end)
  end.

(** ** The DataFrame of lines 95-98 *)

(** A row after the first three [withColumn] calls of lines 95-98, before
    the [funnel_stage] column is added. *)
Record SessionColumns : Type := {
  sc_agg : SessionAgg;
  sc_session_duration_seconds : Z;
  sc_hour_of_day : Z;
  sc_day_of_week : Z
}.

Definition derived_columns (r : SessionAgg) : SessionColumns :=
  {| sc_agg := r;
     sc_session_duration_seconds := session_duration_column r;
     sc_hour_of_day := hour_of_day_column r;
     sc_day_of_week := day_of_week_column r |}.

Definition columns_before_funnel (df : list SessionizedEvent) : list SessionColumns :=
  derived_columns <$> session_features_df df.

Definition sc_key (c : SessionColumns) : Z * string :=
  (sa_user_id (sc_agg c), sa_session_id (sc_agg c)).

(** ** Further sample data *)

(** One user with two pairs of events at identical timestamps, 2000 s
    apart, in two arrival orders that differ only among the ties. *)
Definition tie_events : list Event :=
  [ev 1 0 "view"; ev 1 0 "cart"; ev 1 2000 "purchase"; ev 1 2000 "view"].

Definition tie_events_swapped : list Event :=
  [ev 1 0 "cart"; ev 1 0 "view"; ev 1 2000 "view"; ev 1 2000 "purchase"].

Definition tie_sessionized : list SessionizedEvent :=
  [sz (ev 1 0 "view") "1_1"; sz (ev 1 0 "cart") "1_1";
   sz (ev 1 2000 "purchase") "1_2"; sz (ev 1 2000 "view") "1_2"].


(** ** Further auxiliary definitions *)

(** A string in which the character [c] does not occur. *)
Fixpoint free_of (c : Ascii.ascii) (s : string) : Prop :=
  match s with
  | EmptyString => True
  | String a s' => a ≠ c ∧ free_of c s'
  end.

(** The differences, in seconds, between each timestamp of a list and the
    one before it. *)
Definition neighbour_gaps (ts : list Z) : list Z :=
  zip_with (λ cur prev, Spark.unix_timestamp cur - Spark.unix_timestamp prev)
    (tail ts) ts.

(** What [limit] promises: rows of the DataFrame, [n] of them or all. *)
Definition limit_spec (limit : nat → list RawEvent → list RawEvent) : Prop :=
  ∀ n l, limit n l ⊆+ l ∧ length (limit n l) = Nat.min n (length l).

(** An ordered partition continuing after a row with timestamp [prev]. *)
Definition sorted_after (prev : option Z) (ts : list Z) : Prop :=
  match prev with
  | None => Sorted Z.le ts
  | Some p => Sorted Z.le (p :: ts)
  end.

(** A raw row, a stand-in for the timestamp parser that knows two
    texts, and a file system with one file, for the examples. *)
Definition raw (time : option string) (u : option Z) (ty : string) : RawEvent :=
  {| raw_event_time := time; raw_event_type := Some ty; raw_product_id := None;
     raw_category_id := None; raw_category_code := None; raw_brand := None;
     raw_price := None; raw_user_id := u |}.

Definition sample_to_timestamp (s : string) : option Z :=
  if decide (s = "1970-01-01 00:00:00 UTC") then Some 0
  else if decide (s = "1970-01-01 00:00:30 UTC") then Some (30 * Spark.MICROS_PER_SECOND)
  else None.

Definition sample_raw_rows : list RawEvent :=
  [raw (Some "1970-01-01 00:00:30 UTC") (Some 1) "cart";
   raw (Some "yesterday") (Some 1) "view";
   raw (Some "1970-01-01 00:00:00 UTC") None "view";
   raw None (Some 2) "view";
   raw (Some "1970-01-01 00:00:00 UTC") (Some 1) "view"].

Definition sample_files (path : string) : option (list RawEvent) :=
  if decide (path = "data/events.csv") then Some sample_raw_rows else None.

(** * Properties *)

(** ** Lists, grouping and ordering *)

Section grouping.
Context {A K : Type} `{EqDecision K} (key : A → K).

Lemma bind_insert_at (x : A) (k : K) (g : K → list A) (ks : list K) :
  NoDup ks → k ∈ ks →
  ks ≫= (λ j, if decide (k = j) then x :: g j else g j) ≡ₚ x :: (ks ≫= g).
Proof.
  induction ks as [|j ks IH]; intros Hnd Hin; [by apply elem_of_nil in Hin|].
  apply NoDup_cons in Hnd as [Hj Hnd]. cbn [mbind list_bind].
  destruct (decide (k = j)) as [->|Hne].
  - cbn. f_equiv. f_equiv.
    clear IH Hin. induction ks as [|i ks IH]; [done|].
    apply not_elem_of_cons in Hj as [Hji Hj].
    apply NoDup_cons in Hnd as [_ Hnd]. cbn [mbind list_bind].
    destruct (decide (j = i)); [done|]. f_equiv. by apply IH.
  - apply elem_of_cons in Hin as [?|Hin]; [done|].
    rewrite IH by done. by rewrite Permutation_middle.
Qed.

(** Splitting a list by key and concatenating the groups rearranges it. *)
Lemma group_by_Permutation_gen (l : list A) (ks : list K) :
  NoDup ks → (∀ x, x ∈ l → key x ∈ ks) →
  ks ≫= (λ k, filter (λ x, key x = k) l) ≡ₚ l.
Proof.
  intros Hnd. induction l as [|x l IH]; intros Hin.
  - clear. induction ks as [|k ks IH]; [done|]. by cbn.
  - assert (ks ≫= (λ k, filter (λ y, key y = k) (x :: l))
            = ks ≫= (λ j, if decide (key x = j) then x :: filter (λ y, key y = j) l
                          else filter (λ y, key y = j) l)) as ->.
    { apply list_bind_ext; [|done]. intros j. rewrite filter_cons.
      by destruct (decide (key x = j)). }
    rewrite bind_insert_at; [|done|apply Hin; left].
    f_equiv. apply IH. intros y Hy. apply Hin. by right.
Qed.

Lemma group_by_Permutation (l : list A) :
  remove_dups (key <$> l) ≫= (λ k, filter (λ x, key x = k) l) ≡ₚ l.
Proof.
  apply group_by_Permutation_gen; [apply NoDup_remove_dups|].
  intros x Hx. apply elem_of_remove_dups, list_elem_of_fmap. eauto.
Qed.
End grouping.

Section keyed_bind.
Context {A K : Type} `{EqDecision K} (key : A → K).

Lemma filter_all (P : A → Prop) `{∀ x, Decision (P x)} (l : list A) :
  (∀ x, x ∈ l → P x) → filter P l = l.
Proof.
  induction l as [|x l IH]; intros HP; [done|].
  rewrite filter_cons_True by (apply HP; left).
  f_equal. apply IH. intros y Hy. apply HP. by right.
Qed.

Lemma filter_none (P : A → Prop) `{∀ x, Decision (P x)} (l : list A) :
  (∀ x, x ∈ l → ¬ P x) → filter P l = [].
Proof.
  induction l as [|x l IH]; intros HP; [done|].
  rewrite filter_cons_False by (apply HP; left).
  apply IH. intros y Hy. apply HP. by right.
Qed.

(** Selecting one key from a concatenation of groups that are each of
    one key returns that key's group. *)
Lemma filter_bind_keyed (f : K → list A) (ks : list K) (k : K) :
  NoDup ks → (∀ j x, x ∈ f j → key x = j) →
  filter (λ x, key x = k) (ks ≫= f) = if decide (k ∈ ks) then f k else [].
Proof.
  intros Hnd Hkey. induction ks as [|j ks IH].
  - by rewrite decide_False by apply not_elem_of_nil.
  - apply NoDup_cons in Hnd as [Hj Hnd]. cbn [mbind list_bind].
    rewrite filter_app, IH by done.
    destruct (decide (j = k)) as [->|Hne].
    + rewrite (decide_False (P := k ∈ ks)) by done.
      rewrite decide_True by left. rewrite app_nil_r.
      apply filter_all. intros x Hx. by apply Hkey.
    + rewrite (filter_none _ (f j)).
      2:{ intros x Hx Hk. apply Hne. rewrite <- Hk. symmetry. by apply Hkey. }
      cbn. destruct (decide (k ∈ ks)) as [Hin|Hin].
      * rewrite decide_True; [done|by right].
      * rewrite decide_False; [done|].
        intros [?|?]%elem_of_cons; [by apply Hne|done].
Qed.
End keyed_bind.

(** ** The flag column and the running sum *)

Lemma lag_cons {A} (x : A) (l : list A) (p : option A) :
  take (length (x :: l)) (p :: (Some <$> (x :: l)))
  = p :: take (length l) (Some x :: (Some <$> l)).
Proof. done. Qed.

Lemma time_diff_flags (session_timeout : Z) (part : list Event) :
  new_session_flag session_timeout part
  = flags_from session_timeout None (event_timestamp <$> part).
Proof.
  unfold new_session_flag, time_diff, previous_timestamp, Spark.lag.
  generalize (@None Z) as p.
  induction part as [|e part IH]; intros p; [done|].
  rewrite fmap_cons, lag_cons. cbn [zip_with fmap list_fmap flags_from].
  f_equal. apply IH.
Qed.

Lemma keyed_flags_eq (session_timeout : Z) (part : list Event) (k : Z) :
  Spark.sum_over (keyed_flags session_timeout part) k
  = group_from session_timeout None (event_timestamp <$> part) k.
Proof. unfold keyed_flags, group_from. by rewrite time_diff_flags. Qed.

Lemma flag_of_range (session_timeout : Z) (d : option Z) :
  0 ≤ flag_of session_timeout d ≤ 1.
Proof.
  unfold flag_of. destruct d as [d|]; cbn; [|lia].
  destruct (bool_decide (d > session_timeout)); cbn; lia.
Qed.

Lemma flag_of_null (session_timeout : Z) : flag_of session_timeout None = 1.
Proof. done. Qed.

Lemma flag_of_diff (session_timeout d : Z) :
  flag_of session_timeout (Some d) = if bool_decide (d > session_timeout) then 1 else 0.
Proof. unfold flag_of. cbn. by destruct (bool_decide _). Qed.

Lemma flag_of_zero (session_timeout : Z) :
  0 ≤ session_timeout → flag_of session_timeout (Some 0) = 0.
Proof. intros. rewrite flag_of_diff, bool_decide_eq_false_2; [done|lia]. Qed.

(** On timestamps of whole seconds, as [_load_and_clean_data] parses
    them, [unix_timestamp] is exact. *)
Lemma unix_timestamp_whole_seconds (s : Z) :
  Spark.unix_timestamp (s * Spark.MICROS_PER_SECOND) = s.
Proof. unfold Spark.unix_timestamp. by apply Z.quot_mul. Qed.

Lemma group_from_nil (session_timeout : Z) (p : option Z) (k : Z) :
  group_from session_timeout p [] k = 0.
Proof. done. Qed.

Lemma group_from_cons (session_timeout : Z) (p : option Z) (t : Z) (ts : list Z) (k : Z) :
  group_from session_timeout p (t :: ts) k
  = (if decide (t ≤ k)
     then flag_of session_timeout
            (Spark.minus (Some (Spark.unix_timestamp t)) (Spark.unix_timestamp <$> p))
     else 0)
    + group_from session_timeout (Some t) ts k.
Proof.
  unfold group_from, Spark.sum_over. cbn [flags_from zip zip_with].
  rewrite filter_cons. cbn [fst]. destruct (decide (t ≤ k)); [done|].
  by rewrite Z.add_0_l.
Qed.

(** The running sum never decreases along the ordering key. *)
Lemma group_from_mono (session_timeout : Z) (p : option Z) (ts : list Z) (k k' : Z) :
  k ≤ k' → group_from session_timeout p ts k ≤ group_from session_timeout p ts k'.
Proof.
  intros Hk. revert p. induction ts as [|t ts IH]; intros p; [done|].
  rewrite !group_from_cons. specialize (IH (Some t)).
  pose proof (flag_of_range session_timeout
    (Spark.minus (Some (Spark.unix_timestamp t)) (Spark.unix_timestamp <$> p))).
  repeat case_decide; lia.
Qed.

(** Rows at or after a row with timestamp [p] add nothing to the sum at a
    key [k ≤ p]: they are later than [k], or peers found at zero gap. *)
Lemma group_from_after (session_timeout : Z) (p : Z) (ts : list Z) (k : Z) :
  0 ≤ session_timeout → k ≤ p → Sorted Z.le (p :: ts) →
  group_from session_timeout (Some p) ts k = 0.
Proof.
  intros Hto. revert p. induction ts as [|t ts IH]; intros p Hk Hs; [done|].
  apply Sorted_inv in Hs as [Hs Hhd]. apply HdRel_inv in Hhd.
  rewrite group_from_cons, IH by (done || lia).
  case_decide; [|done].
  assert (t = p) as -> by lia. cbn. rewrite Z.sub_diag.
  by rewrite flag_of_zero.
Qed.

(** The first row of a partition is in session 1. *)
Lemma group_from_first (session_timeout : Z) (t : Z) (ts : list Z) :
  0 ≤ session_timeout → Sorted Z.le (t :: ts) →
  group_from session_timeout None (t :: ts) t = 1.
Proof.
  intros Hto Hs. rewrite group_from_cons, decide_True by lia.
  rewrite group_from_after by (done || lia). done.
Qed.

(** Two neighbours of an ordered partition: the later one's session number
    is the earlier one's plus its own flag. *)
Lemma group_from_step (session_timeout : Z) (p : option Z) (ts1 ts2 : list Z) (a b : Z) :
  0 ≤ session_timeout → Sorted Z.le (ts1 ++ a :: b :: ts2) →
  group_from session_timeout p (ts1 ++ a :: b :: ts2) b
  = group_from session_timeout p (ts1 ++ a :: b :: ts2) a
    + flag_of session_timeout (Some (Spark.unix_timestamp b - Spark.unix_timestamp a)).
Proof.
  intros Hto. revert p. induction ts1 as [|t ts1 IH]; intros p Hs.
  - cbn [app] in *. pose proof Hs as Hs'.
    apply Sorted_inv in Hs' as [Hsb Hab]. apply HdRel_inv in Hab.
    rewrite !group_from_cons. cbn [Spark.minus fmap option_fmap option_map].
    rewrite !(decide_True (P := a ≤ a)), !(decide_True (P := a ≤ b)),
      !(decide_True (P := b ≤ b)) by lia.
    rewrite (group_from_after _ b ts2 b) by (done || lia).
    destruct (decide (b ≤ a)) as [Hba|Hba].
    + assert (b = a) as -> by lia.
      rewrite (group_from_after _ a ts2 a) by (done || lia).
      rewrite Z.sub_diag, flag_of_zero by done. lia.
    + rewrite (group_from_after _ b ts2 a) by (done || lia). lia.
  - cbn [app] in *. pose proof Hs as Hs'.
    apply (Sorted_StronglySorted _) in Hs'.
    apply StronglySorted_inv in Hs' as [_ Hall].
    rewrite Forall_app, !Forall_cons in Hall. destruct Hall as (_ & Hta & Htb & _).
    apply Sorted_inv in Hs as [Hs _].
    rewrite !group_from_cons, IH by done.
    rewrite !decide_True by done. lia.
Qed.

(** ** The shape of the sessionized DataFrame *)

Global Instance ts_le_total : Total ts_le.
Proof. intros a b. unfold ts_le. lia. Qed.

Global Instance ts_le_trans : Transitive ts_le.
Proof. intros a b c. unfold ts_le. lia. Qed.

Lemma make_session_id_inj (u g g' : Z) :
  make_session_id u g = make_session_id u g' → g = g'.
Proof.
  unfold make_session_id, Spark.cast_string. intros H.
  apply (inj (String.app _)) in H. apply (inj (String.app _)) in H.
  by apply (inj pretty) in H.
Qed.

Lemma sorted_partition_user (u : Z) (df : list Event) (e : Event) :
  e ∈ merge_sort ts_le (partition_of u df) → user_id e = u ∧ e ∈ df.
Proof.
  rewrite merge_sort_Permutation. unfold partition_of.
  by rewrite list_elem_of_filter.
Qed.

Lemma sorted_partition_timestamps (u : Z) (df : list Event) :
  Sorted Z.le (event_timestamp <$> merge_sort ts_le (partition_of u df)).
Proof.
  apply (Sorted_fmap _ ts_le); [done|]. apply (Sorted_merge_sort _).
Qed.

Lemma sessionize_partition_fmap (session_timeout : Z) (part : list Event) :
  sessionize_partition session_timeout part
  = (λ e, {| sz_event := e;
             session_id :=
               make_session_id (user_id e)
                 (group_from session_timeout None (event_timestamp <$> part)
                    (event_timestamp e)) |}) <$> part.
Proof.
  unfold sessionize_partition, session_group.
  rewrite zip_with_fmap_r, zip_with_diag.
  apply list_fmap_ext. intros i e _. by rewrite keyed_flags_eq.
Qed.

Lemma sessionize_partition_annotate (session_timeout : Z) (df : list Event) (u : Z) :
  sessionize_partition session_timeout (merge_sort ts_le (partition_of u df))
  = annotate session_timeout df <$> merge_sort ts_le (partition_of u df).
Proof.
  rewrite sessionize_partition_fmap. apply list_fmap_ext. intros i e He.
  apply list_elem_of_lookup_2 in He. apply sorted_partition_user in He as [<- _].
  done.
Qed.

Lemma sessionized_bind (session_timeout : Z) (df : list Event) :
  user_window df ≫= sessionize_partition session_timeout
  = remove_dups (user_id <$> df) ≫=
      (λ u, annotate session_timeout df <$> merge_sort ts_le (partition_of u df)).
Proof.
  unfold user_window. rewrite list_fmap_bind.
  apply list_bind_ext; [|done]. intros u. apply sessionize_partition_annotate.
Qed.

(** The output holds each input event once, with the session identifier
    computed over its user's partition. *)
Lemma sessionized_Permutation (session_timeout : Z) (df : list Event) :
  user_window df ≫= sessionize_partition session_timeout
  ≡ₚ annotate session_timeout df <$> df.
Proof.
  rewrite sessionized_bind.
  rewrite <- (group_by_Permutation user_id df) at 3.
  generalize (remove_dups (user_id <$> df)) as us.
  induction us as [|u us IH]; [done|].
  cbn [mbind list_bind]. rewrite fmap_app. f_equiv; [|done].
  f_equiv. apply merge_sort_Permutation.
Qed.

Lemma sessionize_events_ok (self : Config) (session_timeout : Z) (df : list Event) :
  session_timeout_seconds self = Some session_timeout →
  _sessionize_events self df
  = Ok (user_window df ≫= sessionize_partition session_timeout).
Proof. unfold _sessionize_events. by intros ->. Qed.

Lemma sessionize_events_inv (self : Config) (session_timeout : Z) (df : list Event)
    (out : list SessionizedEvent) :
  session_timeout_seconds self = Some session_timeout →
  _sessionize_events self df = Ok out →
  out = user_window df ≫= sessionize_partition session_timeout.
Proof. intros Hc. rewrite (sessionize_events_ok _ _ _ Hc). congruence. Qed.

(** The rows of one user, in the order of the output, are the user's
    ordered partition with its session identifiers. *)
Lemma user_rows_sessionized (session_timeout : Z) (df : list Event) (u : Z) :
  user_rows u (user_window df ≫= sessionize_partition session_timeout)
  = if decide (u ∈ remove_dups (user_id <$> df))
    then sessionize_partition session_timeout (merge_sort ts_le (partition_of u df))
    else [].
Proof.
  unfold user_rows, user_window. rewrite list_fmap_bind.
  apply (filter_bind_keyed (user_id ∘ sz_event)
           (sessionize_partition session_timeout ∘
              (λ u, merge_sort ts_le (partition_of u df)))).
  - apply NoDup_remove_dups.
  - intros j r. unfold compose. rewrite sessionize_partition_annotate.
    intros (e & -> & He)%list_elem_of_fmap. cbn [sz_event annotate].
    by apply sorted_partition_user in He as [-> _].
Qed.

Lemma neighbours_split {A} (l : list A) (i : nat) (a b : A) :
  l !! i = Some a → l !! S i = Some b →
  l = take i l ++ a :: b :: drop (S (S i)) l.
Proof.
  intros Ha Hb. rewrite <- (take_drop_middle l i a Ha) at 1. do 2 f_equal.
  rewrite <- (take_drop_middle l (S i) b Hb) at 1.
  rewrite drop_app_length'; [done|].
  rewrite length_take. apply lookup_lt_Some in Hb. lia.
Qed.

Lemma Sorted_lookup_le (l : list Z) (j i : nat) (x y : Z) :
  Sorted Z.le l → (j ≤ i)%nat → l !! j = Some x → l !! i = Some y → x ≤ y.
Proof.
  intros Hs%(Sorted_StronglySorted _). revert j i.
  induction Hs as [|z l Hs IH Hall]; intros j i Hji Hj Hi; [done|].
  destruct j as [|j], i as [|i]; simplify_eq/=; try lia.
  - rewrite Forall_forall in Hall. apply Hall.
    by eapply list_elem_of_lookup_2.
  - apply (IH j i); [lia|done..].
Qed.

(** ** Claims about [_sessionize_events] *)

(** The rule on two neighbours of one user's ordered partition. *)
Lemma partition_gap_rule (session_timeout : Z) (part : list Event) (i : nat) (ea eb : Event) :
  0 ≤ session_timeout →
  Sorted Z.le (event_timestamp <$> part) →
  part !! i = Some ea → part !! S i = Some eb →
  let G := group_from session_timeout None (event_timestamp <$> part) in
  let gap := Spark.unix_timestamp (event_timestamp eb)
             - Spark.unix_timestamp (event_timestamp ea) in
  event_timestamp ea ≤ event_timestamp eb ∧
  G (event_timestamp eb)
  = G (event_timestamp ea) + (if bool_decide (gap > session_timeout) then 1 else 0) ∧
  (∀ j ec, (j ≤ i)%nat → part !! j = Some ec →
     G (event_timestamp ec) ≤ G (event_timestamp ea)).
Proof.
  intros Hto Hs Ha Hb G gap. split_and!.
  - apply (Sorted_lookup_le (event_timestamp <$> part) i (S i)); [done|lia|..];
      rewrite list_lookup_fmap; [by rewrite Ha|by rewrite Hb].
  - unfold G, gap. rewrite <- flag_of_diff.
    rewrite (neighbours_split part i ea eb Ha Hb) in Hs |- *.
    rewrite fmap_app, !fmap_cons in Hs |- *.
    by apply group_from_step.
  - intros j ec Hji Hc. apply group_from_mono.
    apply (Sorted_lookup_le (event_timestamp <$> part) j i); [done..| |];
      rewrite list_lookup_fmap; [by rewrite Hc|by rewrite Ha].
Qed.

(** C1: for a positive timeout, two neighbours in a user's chronological
    order carry the same [session_id] exactly when the difference of their
    timestamps in seconds is at most the timeout; when it is greater, the
    later event carries a [session_id] that no earlier event of the user
    has. *)
Theorem C1_gap_rule (self : Config) (session_timeout : Z) (df : list Event)
    (out : list SessionizedEvent) (u : Z) (i : nat) (a b : SessionizedEvent) :
  session_timeout_seconds self = Some session_timeout →
  0 < session_timeout →
  _sessionize_events self df = Ok out →
  user_rows u out !! i = Some a →
  user_rows u out !! S i = Some b →
  let gap := Spark.unix_timestamp (event_timestamp (sz_event b))
             - Spark.unix_timestamp (event_timestamp (sz_event a)) in
  event_timestamp (sz_event a) ≤ event_timestamp (sz_event b) ∧
  (session_id a = session_id b ↔ gap ≤ session_timeout) ∧
  (gap > session_timeout →
   ∀ j c, (j ≤ i)%nat → user_rows u out !! j = Some c → session_id c ≠ session_id b).
Proof.
  intros Hc Hpos Hout Ha Hb gap.
  rewrite (sessionize_events_inv _ _ _ _ Hc Hout) in Ha, Hb |- *.
  rewrite user_rows_sessionized in Ha, Hb |- *.
  destruct (decide (u ∈ remove_dups (user_id <$> df))); [|done].
  set (part := merge_sort ts_le (partition_of u df)) in *.
  rewrite sessionize_partition_fmap in Ha, Hb |- *.
  rewrite list_lookup_fmap in Ha, Hb.
  destruct (part !! i) as [ea|] eqn:Hea; [|done].
  destruct (part !! S i) as [eb|] eqn:Heb; [|done].
  simplify_eq/=.
  assert (user_id ea = u) as Hua.
  { by apply list_elem_of_lookup_2, sorted_partition_user in Hea as [? _]. }
  assert (user_id eb = u) as Hub.
  { by apply list_elem_of_lookup_2, sorted_partition_user in Heb as [? _]. }
  destruct (partition_gap_rule session_timeout part i ea eb) as (Hle & Hstep & Hbefore);
    [lia|apply sorted_partition_timestamps|done..|].
  cbn zeta in Hstep. fold gap in Hstep. rewrite Hua, Hub.
  split_and!; [done|..].
  - split.
    + intros Hid%make_session_id_inj. rewrite Hstep in Hid.
      case_bool_decide; lia.
    + intros Hgap. rewrite Hstep, bool_decide_eq_false_2 by lia.
      by rewrite Z.add_0_r.
  - intros Hgap j c Hj Hcj. rewrite list_lookup_fmap in Hcj.
    destruct (part !! j) as [ec|] eqn:Hec; [|done].
    apply (inj Some) in Hcj as <-. cbn [session_id].
    assert (user_id ec = u) as ->.
    { by apply list_elem_of_lookup_2, sorted_partition_user in Hec as [? _]. }
    intros Hid%make_session_id_inj. specialize (Hbefore j ec Hj Hec).
    rewrite Hstep, bool_decide_eq_true_2 in Hid by done. lia.
Qed.

Lemma sessionized_elem_of (session_timeout : Z) (df : list Event) (r : SessionizedEvent) :
  r ∈ user_window df ≫= sessionize_partition session_timeout
  ↔ ∃ e, r = annotate session_timeout df e ∧ e ∈ df.
Proof. by rewrite sessionized_Permutation, list_elem_of_fmap. Qed.

Lemma user_rows_events (session_timeout : Z) (df : list Event) (u : Z) :
  sz_event <$> user_rows u (user_window df ≫= sessionize_partition session_timeout)
  ≡ₚ partition_of u df.
Proof.
  rewrite user_rows_sessionized.
  destruct (decide (u ∈ remove_dups (user_id <$> df))) as [Hu|Hu].
  - rewrite sessionize_partition_annotate, <- list_fmap_compose.
    rewrite (list_fmap_ext _ id); [|done].
    by rewrite list_fmap_id, merge_sort_Permutation.
  - unfold partition_of. rewrite filter_none; [done|].
    intros e He Heu. apply Hu, elem_of_remove_dups, list_elem_of_fmap. eauto.
Qed.

(** The time difference of a row other than the first is the difference,
    in seconds, to the row before. *)
Lemma time_diff_lookup_S (part : list Event) (i : nat) (ea eb : Event) :
  part !! i = Some ea → part !! S i = Some eb →
  time_diff part !! S i
  = Some (Some (Spark.unix_timestamp (event_timestamp eb)
                - Spark.unix_timestamp (event_timestamp ea))).
Proof.
  unfold time_diff, previous_timestamp, Spark.lag.
  generalize (@None Z) as p. revert i.
  induction part as [|e part IH]; intros i p Ha Hb; [done|].
  rewrite fmap_cons, lag_cons. cbn [zip_with].
  destruct i as [|i].
  - destruct part as [|e' part]; simplify_eq/=. done.
  - cbn [lookup list_lookup] in *. by apply IH.
Qed.

Lemma time_diff_head (part : list Event) : head (time_diff part) = (λ _, None) <$> head part.
Proof. by destruct part. Qed.

Lemma new_session_flag_lookup (session_timeout : Z) (part : list Event) (i : nat) :
  new_session_flag session_timeout part !! i
  = flag_of session_timeout <$> time_diff part !! i.
Proof. unfold new_session_flag. by rewrite list_lookup_fmap. Qed.

(** C7: the sessions partition each user's events.  The output holds
    every input event once; an event has one [session_id]; the sessions of
    a user, concatenated, are the user's rows and two different sessions
    share no row; and a row of the user whose timestamp lies between the
    timestamps of two rows of one session is in that session. *)
Theorem C7_partition (self : Config) (df : list Event) (out : list SessionizedEvent) :
  _sessionize_events self df = Ok out →
  sz_event <$> out ≡ₚ df ∧
  (∀ u, sz_event <$> user_rows u out ≡ₚ partition_of u df) ∧
  (∀ r1 r2, r1 ∈ out → r2 ∈ out → sz_event r1 = sz_event r2 →
     session_id r1 = session_id r2) ∧
  (∀ u, remove_dups (session_id <$> user_rows u out) ≫=
          (λ s, session_of s (user_rows u out)) ≡ₚ user_rows u out) ∧
  (∀ u s s' r, s ≠ s' → r ∈ session_of s (user_rows u out) →
     r ∉ session_of s' (user_rows u out)) ∧
  (∀ u r1 r2 r, r1 ∈ user_rows u out → r2 ∈ user_rows u out → r ∈ user_rows u out →
     session_id r1 = session_id r2 →
     event_timestamp (sz_event r1) ≤ event_timestamp (sz_event r)
       ≤ event_timestamp (sz_event r2) →
     session_id r = session_id r1).
Proof.
  intros Hout.
  destruct (session_timeout_seconds self) as [session_timeout|] eqn:Hc.
  2:{ unfold _sessionize_events in Hout. by rewrite Hc in Hout. }
  rewrite (sessionize_events_inv _ _ _ _ Hc Hout). split_and!.
  - rewrite sessionized_Permutation, <- list_fmap_compose.
    rewrite (list_fmap_ext _ id); [|done]. by rewrite list_fmap_id.
  - intros u. apply user_rows_events.
  - intros r1 r2 (e1 & -> & _)%sessionized_elem_of (e2 & -> & _)%sessionized_elem_of.
    unfold annotate. cbn [sz_event session_id]. by intros ->.
  - intros u. apply (group_by_Permutation session_id).
  - intros u s s' r Hne. unfold session_of.
    rewrite !list_elem_of_filter. intros [-> _] [? _]. done.
  - intros u r1 r2 r. unfold user_rows. rewrite !list_elem_of_filter.
    intros [Hu1 (e1 & -> & _)%sessionized_elem_of]
           [Hu2 (e2 & -> & _)%sessionized_elem_of]
           [Hu (e & -> & _)%sessionized_elem_of].
    unfold annotate in *. cbn [sz_event session_id] in *. rewrite Hu1, Hu2, Hu.
    intros Hid%make_session_id_inj [Hlo Hhi]. f_equal.
    pose proof (group_from_mono session_timeout None
      (event_timestamp <$> merge_sort ts_le (partition_of u df)) _ _ Hlo).
    pose proof (group_from_mono session_timeout None
      (event_timestamp <$> merge_sort ts_le (partition_of u df)) _ _ Hhi).
    lia.
Qed.

(** The session numbers of a partition depend on its timestamps only up
    to their order of arrival. *)
Lemma sorted_timestamps_Permutation (u : Z) (df df' : list Event) :
  df' ≡ₚ df →
  event_timestamp <$> merge_sort ts_le (partition_of u df')
  = event_timestamp <$> merge_sort ts_le (partition_of u df).
Proof.
  intros Hp. apply (Sorted_unique Z.le); [apply sorted_partition_timestamps..|].
  unfold partition_of. by rewrite !merge_sort_Permutation, Hp.
Qed.

Lemma annotate_Permutation (session_timeout : Z) (df df' : list Event) (e : Event) :
  df' ≡ₚ df → annotate session_timeout df' e = annotate session_timeout df e.
Proof. intros Hp. unfold annotate. by rewrite (sorted_timestamps_Permutation _ _ _ Hp). Qed.

(** C9: two events of a user with identical timestamps get the same
    [session_id]; where they are neighbours in the ordered partition the
    later one's [time_diff] is zero; and reordering the input, in particular
    among ties, changes no event's [session_id]. *)
Theorem C9_ties (self : Config) (df : list Event) (out : list SessionizedEvent) :
  _sessionize_events self df = Ok out →
  (∀ r1 r2, r1 ∈ out → r2 ∈ out →
     user_id (sz_event r1) = user_id (sz_event r2) →
     event_timestamp (sz_event r1) = event_timestamp (sz_event r2) →
     session_id r1 = session_id r2) ∧
  (∀ part i ea eb, part ∈ user_window df →
     part !! i = Some ea → part !! S i = Some eb →
     event_timestamp ea = event_timestamp eb →
     time_diff part !! S i = Some (Some 0)) ∧
  (∀ df', df' ≡ₚ df →
     ∃ out', _sessionize_events self df' = Ok out' ∧ out' ≡ₚ out).
Proof.
  intros Hout.
  destruct (session_timeout_seconds self) as [session_timeout|] eqn:Hc.
  2:{ unfold _sessionize_events in Hout. by rewrite Hc in Hout. }
  rewrite (sessionize_events_inv _ _ _ _ Hc Hout). split_and!.
  - intros r1 r2 (e1 & -> & _)%sessionized_elem_of (e2 & -> & _)%sessionized_elem_of.
    unfold annotate. cbn [sz_event session_id]. by intros -> ->.
  - intros part i ea eb _ Ha Hb Hts.
    rewrite (time_diff_lookup_S part i ea eb Ha Hb), Hts. by rewrite Z.sub_diag.
  - intros df' Hp. eexists. split; [by apply sessionize_events_ok|].
    rewrite !sessionized_Permutation.
    rewrite (list_fmap_ext (annotate session_timeout df') (annotate session_timeout df)).
    + by apply fmap_Permutation.
    + intros _ e _. by apply annotate_Permutation.
Qed.

Lemma sorted_partition_nonempty (u : Z) (df : list Event) :
  u ∈ user_id <$> df → merge_sort ts_le (partition_of u df) ≠ [].
Proof.
  intros (e & -> & He)%list_elem_of_fmap Hnil.
  assert (e ∈ merge_sort ts_le (partition_of (user_id e) df)) as Hin.
  { rewrite merge_sort_Permutation. unfold partition_of.
    by rewrite list_elem_of_filter. }
  rewrite Hnil in Hin. by apply elem_of_nil in Hin.
Qed.

Lemma user_window_elem_of (df : list Event) (part : list Event) :
  part ∈ user_window df
  ↔ ∃ u, part = merge_sort ts_le (partition_of u df) ∧ u ∈ user_id <$> df.
Proof.
  unfold user_window. rewrite list_elem_of_fmap.
  by setoid_rewrite elem_of_remove_dups.
Qed.

(** C2, as the code has it: for a timeout that is not negative, the
    chronologically first event of a user is in the session numbered 1;
    the first row of every partition has a null [time_diff], and a row with
    a null [time_diff] has [new_session_flag] 1. *)
Theorem C2_first_event_session_1 (self : Config) (session_timeout : Z)
    (df : list Event) (out : list SessionizedEvent) (u : Z) :
  session_timeout_seconds self = Some session_timeout →
  0 ≤ session_timeout →
  _sessionize_events self df = Ok out →
  u ∈ user_id <$> df →
  (∃ r rest, user_rows u out = r :: rest ∧
     (∀ c, c ∈ rest →
        event_timestamp (sz_event r) ≤ event_timestamp (sz_event c)) ∧
     session_id r = make_session_id u 1) ∧
  (∀ part, part ∈ user_window df → head (time_diff part) = Some None) ∧
  (∀ part i, part ∈ user_window df → time_diff part !! i = Some None →
     new_session_flag session_timeout part !! i = Some 1).
Proof.
  intros Hc Hto Hout Hu.
  rewrite (sessionize_events_inv _ _ _ _ Hc Hout). split_and!.
  - rewrite user_rows_sessionized, decide_True by by apply elem_of_remove_dups.
    pose proof (sorted_partition_nonempty u df Hu) as Hne.
    pose proof (sorted_partition_timestamps u df) as Hs.
    assert (∀ e, e ∈ merge_sort ts_le (partition_of u df) → user_id e = u) as Huser.
    { intros e He. by apply sorted_partition_user in He as [? _]. }
    rewrite sessionize_partition_fmap.
    destruct (merge_sort ts_le (partition_of u df)) as [|e part]; [done|].
    rewrite !fmap_cons in *. eexists _, _. split_and!; [done|..].
    + intros c (ec & -> & Hec)%list_elem_of_fmap. cbn [sz_event].
      apply (Sorted_StronglySorted _), StronglySorted_inv in Hs as [_ Hall].
      rewrite Forall_forall in Hall. apply Hall, list_elem_of_fmap. eauto.
    + cbn [session_id]. rewrite (Huser e) by left.
      by rewrite group_from_first.
  - intros part (u' & -> & Hu')%user_window_elem_of.
    rewrite time_diff_head.
    pose proof (sorted_partition_nonempty u' df Hu').
    by destruct (merge_sort ts_le (partition_of u' df)).
  - intros part i _ Hd. by rewrite new_session_flag_lookup, Hd.
Qed.

(** ** The configuration and [run] *)

Lemma sessionized_length (session_timeout : Z) (df : list Event) :
  length (user_window df ≫= sessionize_partition session_timeout) = length df.
Proof. by rewrite sessionized_Permutation, length_fmap. Qed.

Lemma run_missing_timeout (self : Config) (df : list Event) :
  session_timeout_seconds self = None →
  run self df = MkRun [] (Err (KeyError "session_timeout_seconds")).
Proof. unfold run, _sessionize_events. by intros ->. Qed.

Lemma run_first_action (self : Config) (session_timeout : Z) (df : list Event) :
  session_timeout_seconds self = Some session_timeout →
  ∃ rest, actions (run self df) = Count (length df) :: rest.
Proof.
  intros Hc. unfold run. rewrite (sessionize_events_ok _ _ _ Hc).
  cbn [mbind run_bind lift outcome actions app act].
  rewrite sessionized_length. eauto.
Qed.

Lemma run_outcome_not_KeyError (self : Config) (session_timeout : Z) (df : list Event) :
  session_timeout_seconds self = Some session_timeout →
  outcome (run self df) ≠ Err (KeyError "session_timeout_seconds").
Proof.
  intros Hc. unfold run. rewrite (sessionize_events_ok _ _ _ Hc).
  unfold _aggregate_to_session_features, funnel_stage_column. cbn. done.
Qed.

(** C5, as the code has it: without the key [session_timeout_seconds] the
    lookup in [_sessionize_events] raises a [KeyError] and [run] executes
    no action; a value that is present is not validated: for every
    integer, positive or not, [_sessionize_events] returns the sessionized
    events and the first action of [run] counts them. *)
Theorem C5_timeout_lookup (p1 p2 : option string) (df : list Event) :
  let missing := {| session_timeout_seconds := None;
                    output_path_session_features := p1;
                    output_path_user_summary := p2 |} in
  _sessionize_events missing df = Err (KeyError "session_timeout_seconds") ∧
  run missing df = MkRun [] (Err (KeyError "session_timeout_seconds")) ∧
  ∀ session_timeout : Z,
    let present := {| session_timeout_seconds := Some session_timeout;
                      output_path_session_features := p1;
                      output_path_user_summary := p2 |} in
    _sessionize_events present df
    = Ok (user_window df ≫= sessionize_partition session_timeout) ∧
    head (actions (run present df)) = Some (Count (length df)) ∧
    outcome (run present df) ≠ Err (KeyError "session_timeout_seconds").
Proof.
  cbn zeta. split_and!; [done|by apply run_missing_timeout|].
  intros session_timeout.
  set (present := {| session_timeout_seconds := Some session_timeout;
                     output_path_session_features := p1;
                     output_path_user_summary := p2 |}).
  split_and!; [done|..].
  - by destruct (run_first_action present session_timeout df eq_refl) as [rest ->].
  - by apply (run_outcome_not_KeyError present session_timeout).
Qed.

(** ** Claims about [_aggregate_to_session_features] *)

(** The chain of lines 100-103 over the membership test
    [array_contains]: the first match in the order purchase, cart, view
    decides. *)
Lemma funnel_stage_chain_priority (types : list string) :
  funnel_stage_chain Spark.array_contains types
  = if decide ("purchase" ∈ types) then "completed_purchase"
    else if decide ("cart" ∈ types) then "added_to_cart"
    else if decide ("view" ∈ types) then "view_only"
    else "other".
Proof.
  unfold funnel_stage_chain, Spark.array_contains, Spark.when_otherwise.
  repeat case_decide; repeat case_bool_decide; done.
Qed.

(** C6, what the code does: the [funnel_stage] column applies
    [Column.contains], a predicate on strings, to the array column
    [unique_event_types]; the expression does not resolve, and
    [_aggregate_to_session_features] raises for every input instead of
    classifying the sessions. *)
Theorem C6_funnel_stage_not_resolved (df : list SessionizedEvent) :
  funnel_stage_column = Err (AnalysisException "DATATYPE_MISMATCH.UNEXPECTED_INPUT_TYPE") ∧
  _aggregate_to_session_features df
  = Err (AnalysisException "DATATYPE_MISMATCH.UNEXPECTED_INPUT_TYPE").
Proof. done. Qed.

Lemma dayofweek_range (ts : Z) : 1 ≤ Spark.dayofweek ts ≤ 7.
Proof. unfold Spark.dayofweek. pose proof (Z.mod_pos_bound (Spark.epoch_day ts + 4) 7). lia. Qed.

Lemma dayofweek_next_day (ts : Z) :
  Spark.dayofweek (ts + Spark.MICROS_PER_DAY) = Spark.dayofweek ts `mod` 7 + 1.
Proof.
  unfold Spark.dayofweek, Spark.epoch_day.
  replace (ts + Spark.MICROS_PER_DAY) with (ts + 1 * Spark.MICROS_PER_DAY) by lia.
  rewrite Z.div_add by done.
  replace (ts `div` Spark.MICROS_PER_DAY + 1 + 4)
    with ((ts `div` Spark.MICROS_PER_DAY + 4) + 1) by lia.
  f_equal. rewrite (Z.add_mod (_ + 4) 1 7) by done.
  rewrite (Z.add_mod (_ `mod` 7) 1 7) by done.
  by rewrite Z.mod_mod.
Qed.

(** ** Claims about [_aggregate_to_user_features] *)

Global Instance start_le_total : Total start_le.
Proof. intros a b. unfold start_le. lia. Qed.

Global Instance Zsum_Permutation : Proper ((≡ₚ) ==> (=)) Spark.Zsum.
Proof. unfold Spark.Zsum. induction 1; cbn [foldr] in *; lia. Qed.


Lemma wrap_long_add (x y : Z) :
  Spark.wrap_long (x + Spark.wrap_long y) = Spark.wrap_long (x + y).
Proof.
  unfold Spark.wrap_long. f_equal.
  replace (x + ((y + 2 ^ 63) `mod` 2 ^ 64 - 2 ^ 63) + 2 ^ 63)
    with (x + (y + 2 ^ 63) `mod` 2 ^ 64) by lia.
  rewrite Zplus_mod_idemp_r. f_equal. lia.
Qed.

Lemma sum_long_wrap (l : list Z) :
  Spark.sum_long l = Spark.wrap_long (Spark.Zsum l).
Proof.
  unfold Spark.sum_long, Spark.Zsum. induction l as [|x l IH]; [done|].
  cbn [foldr]. by rewrite IH, wrap_long_add.
Qed.


Global Instance sum_long_Permutation : Proper ((≡ₚ) ==> (=)) Spark.sum_long.
Proof. intros l l' Hp. by rewrite !sum_long_wrap, Hp. Qed.

Lemma omap_id_Some {A} (xs : list A) : omap id (Some <$> xs) = xs.
Proof. induction xs as [|x xs IH]; [done|]. cbn. by rewrite IH. Qed.

Lemma avg_skips_first_null (xs : list Z) :
  Spark.avg (None :: (Some <$> xs))
  = match xs with
    | [] => None
    | _ => Some (inject_Z (Spark.Zsum xs) / inject_Z (Z.of_nat (length xs)))%Q
    end.
Proof.
  unfold Spark.avg. change (omap id (None :: (Some <$> xs))) with (omap id (Some <$> xs)).
  rewrite omap_id_Some. by destruct xs.
Qed.

Lemma start_gap_from (p : option Z) (part : list SessionFeatures) :
  zip_with
    (λ s prev, Spark.minus (Some (Spark.unix_timestamp (sf_start s)))
                           (Spark.unix_timestamp <$> prev))
    part (take (length (sf_start <$> part)) (p :: (Some <$> (sf_start <$> part))))
  = match part with
    | [] => []
    | s :: _ =>
        Spark.minus (Some (Spark.unix_timestamp (sf_start s))) (Spark.unix_timestamp <$> p)
        :: (Some <$> spec_gaps (sf_start <$> part))
    end.
Proof.
  revert p. induction part as [|s part IH]; intros p; [done|].
  rewrite fmap_cons, lag_cons. cbn [zip_with]. f_equal.
  rewrite IH. by destruct part.
Qed.

(** The gap column: null on the first session, then the specification's
    gaps. *)
Lemma start_gap_spec (part : list SessionFeatures) :
  start_gap part
  = match part with
    | [] => []
    | _ => None :: (Some <$> spec_gaps (sf_start <$> part))
    end.
Proof.
  unfold start_gap, previous_session_start, Spark.lag.
  rewrite start_gap_from. by destruct part.
Qed.

Lemma spec_gaps_length (starts : list Z) :
  length (spec_gaps starts) = pred (length starts).
Proof.
  induction starts as [|s0 [|s1 rest] IH]; [done..|].
  change (spec_gaps (s0 :: s1 :: rest))
    with ((Spark.unix_timestamp s1 - Spark.unix_timestamp s0) :: spec_gaps (s1 :: rest)).
  cbn [length]. rewrite IH. done.
Qed.

Lemma user_features_elem_of (df : list SessionFeatures) (row : UserSummary) :
  row ∈ _aggregate_to_user_features df
  ↔ ∃ u, row = user_summary u (ordered_sessions u df) ∧ u ∈ sf_user_id <$> df.
Proof.
  unfold _aggregate_to_user_features. rewrite list_elem_of_fmap.
  by setoid_rewrite elem_of_remove_dups.
Qed.

Lemma ordered_sessions_Permutation (u : Z) (df : list SessionFeatures) :
  ordered_sessions u df ≡ₚ sessions_of u df.
Proof. apply merge_sort_Permutation. Qed.

Lemma ordered_sessions_sorted (u : Z) (df : list SessionFeatures) :
  Sorted Z.le (sf_start <$> ordered_sessions u df).
Proof. apply (Sorted_fmap _ start_le); [done|]. apply (Sorted_merge_sort _). Qed.

(** C3: with two sessions or more, [avg_time_between_sessions_hours] is
    the mean of the differences, in seconds, between each session start
    and the one before it in ascending order of start, the first session
    left out, divided by 3600; with two sessions whose starts are 7170
    seconds apart it is 7170/3600. *)
Theorem C3_avg_time_between_sessions (df : list SessionFeatures) (row : UserSummary) :
  row ∈ _aggregate_to_user_features df →
  (2 ≤ length (sessions_of (us_user_id row) df))%nat →
  let starts := sf_start <$> ordered_sessions (us_user_id row) df in
  Sorted Z.le starts ∧
  starts ≡ₚ sf_start <$> sessions_of (us_user_id row) df ∧
  length (spec_gaps starts) = pred (length (sessions_of (us_user_id row) df)) ∧
  avg_time_between_sessions_hours row
  = Some (spec_avg_time_between_sessions_hours starts) ∧
  (∀ s1 s2, ordered_sessions (us_user_id row) df = [s1; s2] →
     Spark.unix_timestamp (sf_start s2) - Spark.unix_timestamp (sf_start s1) = 7170 →
     ∃ q, avg_time_between_sessions_hours row = Some q ∧ (q == 7170 # 3600)%Q).
Proof.
  intros (u & -> & Hu)%user_features_elem_of. cbn [us_user_id user_summary].
  intros Hlen. set (starts := sf_start <$> ordered_sessions u df).
  pose proof (ordered_sessions_Permutation u df) as Hperm.
  assert (length (ordered_sessions u df) = length (sessions_of u df)) as Hl
    by by rewrite Hperm.
  assert (avg_time_between_sessions_hours (user_summary u (ordered_sessions u df))
          = Some (spec_avg_time_between_sessions_hours starts)) as Havg.
  { cbn [avg_time_between_sessions_hours user_summary].
    rewrite start_gap_spec. fold starts.
    destruct (ordered_sessions u df) as [|s0 [|s1 rest]] eqn:Hord;
      [cbn in Hl; lia..|].
    rewrite avg_skips_first_null.
    unfold spec_avg_time_between_sessions_hours.
    destruct (spec_gaps starts) eqn:Hg; [|done].
    apply (f_equal length) in Hg. rewrite spec_gaps_length in Hg.
    unfold starts in Hg. by rewrite length_fmap in Hg. }
  split_and!.
  - apply ordered_sessions_sorted.
  - unfold starts. by rewrite Hperm.
  - rewrite spec_gaps_length. unfold starts. by rewrite length_fmap, Hl.
  - done.
  - intros s1 s2 Hord Hgap. eexists. split; [exact Havg|].
    unfold spec_avg_time_between_sessions_hours, starts. rewrite Hord.
    cbn [fmap list_fmap spec_gaps]. rewrite Hgap. done.
Qed.

(** C4: with exactly one session, [avg_time_between_sessions_sec] and
    [avg_time_between_sessions_hours] are null. *)
Theorem C4_single_session_null (df : list SessionFeatures) (row : UserSummary) :
  row ∈ _aggregate_to_user_features df →
  length (sessions_of (us_user_id row) df) = 1%nat →
  avg_time_between_sessions_sec row = None ∧
  avg_time_between_sessions_hours row = None.
Proof.
  intros (u & -> & Hu)%user_features_elem_of. cbn [us_user_id user_summary].
  intros Hlen. rewrite <- (ordered_sessions_Permutation u df) in Hlen.
  cbn [avg_time_between_sessions_sec avg_time_between_sessions_hours user_summary].
  rewrite start_gap_spec.
  by destruct (ordered_sessions u df) as [|s0 [|s1 rest]].
Qed.




(** The rows that the grouping of [_aggregate_to_session_features] builds
    meet the two conditions of C8, whatever the derived columns are. *)
Lemma session_features_keys (funnel : list string → string) (df : list SessionizedEvent) :
  NoDup (sf_key <$> (with_features funnel <$> session_features_df df)) ∧
  (∀ s, s ∈ with_features funnel <$> session_features_df df →
     1 ≤ total_events (sf_agg s)).
Proof.
  unfold session_features_df.
  assert (∀ k rows a, aggregate_group k rows = Some a →
            (sa_user_id a, sa_session_id a) = k ∧ 1 ≤ total_events a) as Hagg.
  { intros [u sid] rows a. unfold aggregate_group.
    destruct rows as [|r rows]; [done|]. cbn. intros [= <-]. cbn. split; [done|lia]. }
  split.
  - rewrite <- list_fmap_compose.
    pose proof (NoDup_remove_dups (session_key <$> df)) as Hnd.
    induction Hnd as [|k ks Hk Hnd IH]; [constructor|].
    cbn [omap list_omap].
    destruct (aggregate_group k (session_rows k df)) as [a|] eqn:Ha; [|done].
    rewrite fmap_cons. apply NoDup_cons. split; [|done].
    apply Hagg in Ha as [<- _].
    intros (a' & Hk' & (k' & Hin & Ha')%list_elem_of_omap)%list_elem_of_fmap.
    apply Hagg in Ha' as [<- _]. apply Hk.
    unfold compose, sf_key, sf_user_id, sf_session_id in Hk'. cbn in Hk'.
    by rewrite Hk'.
  - intros s (a & -> & (k & _ & Ha)%list_elem_of_omap)%list_elem_of_fmap.
    cbn. by apply Hagg in Ha as [_ ?].
Qed.

(** ** The claims on the sample data *)

Example sample_sessionize :
  _sessionize_events (cfg (Some 1800)) sample_events = Ok sample_sessionized.
Proof. reflexivity. Qed.

Example sample_user_features :
  _aggregate_to_user_features sample_sessions = [sample_summary_2; sample_summary_1].
Proof. reflexivity. Qed.

(** The end-to-end example of the specification: the two sessions of user 1
    start 7200 s apart. *)
Example sample_session_starts :
  session_start_time <$> session_features_df sample_sessionized
  = [5 * Spark.MICROS_PER_SECOND; 0; 7200 * Spark.MICROS_PER_SECOND].
Proof. reflexivity. Qed.

(** The value of the specification's end-to-end example (one user at 0 s,
    30 s and 7200 s, timeout 1800), with the funnel column taken over
    [array_contains]. *)
Example end_to_end_avg_hours :
  avg_time_between_sessions_hours
    <$> _aggregate_to_user_features
          (with_features (funnel_stage_chain Spark.array_contains)
             <$> session_features_df sample_sessionized)
  = [None; Some (7200 # 3600)%Q].
Proof. reflexivity. Qed.

Lemma C1_gap_rule_witness :
  let a := sz (ev 1 30 "cart") "1_1" in
  let b := sz (ev 1 7200 "purchase") "1_2" in
  let gap := Spark.unix_timestamp (event_timestamp (sz_event b))
             - Spark.unix_timestamp (event_timestamp (sz_event a)) in
  event_timestamp (sz_event a) ≤ event_timestamp (sz_event b) ∧
  (session_id a = session_id b ↔ gap ≤ 1800) ∧
  (gap > 1800 →
   ∀ j c, (j ≤ 1)%nat → user_rows 1 sample_sessionized !! j = Some c →
          session_id c ≠ session_id b).
Proof.
  apply (C1_gap_rule (cfg (Some 1800)) 1800 sample_events sample_sessionized 1 1);
    reflexivity.
Defined.

Lemma C2_first_event_session_1_witness :
  (∃ r rest, user_rows 1 sample_sessionized = r :: rest ∧
     (∀ c, c ∈ rest →
        event_timestamp (sz_event r) ≤ event_timestamp (sz_event c)) ∧
     session_id r = make_session_id 1 1) ∧
  (∀ part, part ∈ user_window sample_events → head (time_diff part) = Some None) ∧
  (∀ part i, part ∈ user_window sample_events → time_diff part !! i = Some None →
     new_session_flag 1800 part !! i = Some 1).
Proof.
  apply (C2_first_event_session_1 (cfg (Some 1800)) 1800 sample_events sample_sessionized 1).
  - reflexivity.
  - lia.
  - reflexivity.
  - apply (list_elem_of_lookup_2 _ 0%nat). reflexivity.
Defined.

(** C2 as stated fails: the only event of a user is in session 1, not 0. *)
Lemma C2_counterexample :
  _sessionize_events (cfg (Some 1800)) [ev 7 0 "view"] = Ok [sz (ev 7 0 "view") "7_1"] ∧
  "7_1" ≠ make_session_id 7 0.
Proof. split; [reflexivity|]. vm_compute. discriminate. Qed.

(** C5 as stated fails: with a timeout of 0 or of -60 no error is raised
    by the lookup; the events are sessionized and counted. *)
Lemma C5_counterexample :
  _sessionize_events (cfg (Some 0)) close_events
  = Ok [sz (ev 1 0 "view") "1_1"; sz (ev 1 1 "cart") "1_2"] ∧
  head (actions (run (cfg (Some 0)) close_events)) = Some (Count 2) ∧
  outcome (run (cfg (Some 0)) close_events) ≠ Err (KeyError "session_timeout_seconds") ∧
  _sessionize_events (cfg (Some (-60))) close_events
  = Ok [sz (ev 1 0 "view") "1_1"; sz (ev 1 1 "cart") "1_2"] ∧
  head (actions (run (cfg (Some (-60))) close_events)) = Some (Count 2) ∧
  outcome (run (cfg (Some (-60))) close_events) ≠ Err (KeyError "session_timeout_seconds").
Proof. repeat split; try reflexivity; vm_compute; discriminate. Qed.

Lemma C7_partition_witness :
  sz_event <$> sample_sessionized ≡ₚ sample_events ∧
  (∀ u, sz_event <$> user_rows u sample_sessionized ≡ₚ partition_of u sample_events) ∧
  (∀ r1 r2, r1 ∈ sample_sessionized → r2 ∈ sample_sessionized →
     sz_event r1 = sz_event r2 → session_id r1 = session_id r2) ∧
  (∀ u, remove_dups (session_id <$> user_rows u sample_sessionized) ≫=
          (λ s, session_of s (user_rows u sample_sessionized))
        ≡ₚ user_rows u sample_sessionized) ∧
  (∀ u s s' r, s ≠ s' → r ∈ session_of s (user_rows u sample_sessionized) →
     r ∉ session_of s' (user_rows u sample_sessionized)) ∧
  (∀ u r1 r2 r, r1 ∈ user_rows u sample_sessionized →
     r2 ∈ user_rows u sample_sessionized → r ∈ user_rows u sample_sessionized →
     session_id r1 = session_id r2 →
     event_timestamp (sz_event r1) ≤ event_timestamp (sz_event r)
       ≤ event_timestamp (sz_event r2) →
     session_id r = session_id r1).
Proof.
  apply (C7_partition (cfg (Some 1800)) sample_events sample_sessionized).
  reflexivity.
Defined.

(** The tie sample in its second arrival order. *)
Example tie_sample_swapped :
  _sessionize_events (cfg (Some 1800)) tie_events_swapped
  = Ok [sz (ev 1 0 "cart") "1_1"; sz (ev 1 0 "view") "1_1";
        sz (ev 1 2000 "view") "1_2"; sz (ev 1 2000 "purchase") "1_2"].
Proof. reflexivity. Qed.

Lemma C9_ties_witness :
  ((∀ r1 r2, r1 ∈ tie_sessionized → r2 ∈ tie_sessionized →
      user_id (sz_event r1) = user_id (sz_event r2) →
      event_timestamp (sz_event r1) = event_timestamp (sz_event r2) →
      session_id r1 = session_id r2) ∧
   (∀ part i ea eb, part ∈ user_window tie_events →
      part !! i = Some ea → part !! S i = Some eb →
      event_timestamp ea = event_timestamp eb →
      time_diff part !! S i = Some (Some 0)) ∧
   (∀ df', df' ≡ₚ tie_events →
      ∃ out', _sessionize_events (cfg (Some 1800)) df' = Ok out' ∧
              out' ≡ₚ tie_sessionized)) ∧
  session_id (sz (ev 1 0 "view") "1_1") = session_id (sz (ev 1 0 "cart") "1_1") ∧
  session_id (sz (ev 1 2000 "purchase") "1_2") = session_id (sz (ev 1 2000 "view") "1_2") ∧
  time_diff tie_events !! 1%nat = Some (Some 0) ∧
  time_diff tie_events !! 3%nat = Some (Some 0) ∧
  (∃ out', _sessionize_events (cfg (Some 1800)) tie_events_swapped = Ok out' ∧
           out' ≡ₚ tie_sessionized).
Proof.
  pose proof (C9_ties (cfg (Some 1800)) tie_events tie_sessionized eq_refl)
    as Hties.
  split; [exact Hties|]. destruct Hties as (Hsame & Hzero & Horder).
  assert (tie_events ∈ user_window tie_events) as Hpart
    by (apply (list_elem_of_lookup_2 _ 0%nat); reflexivity).
  split_and!.
  - apply Hsame; [apply (list_elem_of_lookup_2 _ 0%nat)
                 |apply (list_elem_of_lookup_2 _ 1%nat)|..]; reflexivity.
  - apply Hsame; [apply (list_elem_of_lookup_2 _ 2%nat)
                 |apply (list_elem_of_lookup_2 _ 3%nat)|..]; reflexivity.
  - apply (Hzero tie_events 0%nat (ev 1 0 "view") (ev 1 0 "cart") Hpart); reflexivity.
  - apply (Hzero tie_events 2%nat (ev 1 2000 "purchase") (ev 1 2000 "view") Hpart);
      reflexivity.
  - apply Horder. unfold tie_events_swapped, tie_events.
    etrans; [apply perm_swap|]. do 2 apply perm_skip. apply perm_swap.
Defined.

Lemma C3_avg_time_between_sessions_witness :
  let starts := sf_start <$> ordered_sessions 1 sample_sessions in
  Sorted Z.le starts ∧
  starts ≡ₚ sf_start <$> sessions_of 1 sample_sessions ∧
  length (spec_gaps starts) = pred (length (sessions_of 1 sample_sessions)) ∧
  avg_time_between_sessions_hours sample_summary_1
  = Some (spec_avg_time_between_sessions_hours starts) ∧
  (∀ s1 s2, ordered_sessions 1 sample_sessions = [s1; s2] →
     Spark.unix_timestamp (sf_start s2) - Spark.unix_timestamp (sf_start s1) = 7170 →
     ∃ q, avg_time_between_sessions_hours sample_summary_1 = Some q ∧
          (q == 7170 # 3600)%Q).
Proof.
  apply (C3_avg_time_between_sessions sample_sessions sample_summary_1).
  - apply (list_elem_of_lookup_2 _ 1%nat). reflexivity.
  - vm_compute. lia.
Defined.

Lemma C4_single_session_null_witness :
  avg_time_between_sessions_sec sample_summary_2 = None ∧
  avg_time_between_sessions_hours sample_summary_2 = None.
Proof.
  apply (C4_single_session_null sample_sessions sample_summary_2).
  - apply (list_elem_of_lookup_2 _ 0%nat). reflexivity.
  - reflexivity.
Defined.



(** * Further properties *)

(** ** [session_id] as a key *)

Lemma pretty_N_char_not_underscore (x : N) : pretty_N_char x ≠ "_"%char.
Proof. unfold pretty_N_char. by repeat case_match. Qed.

Lemma pretty_N_go_free (x : N) (s : string) :
  free_of "_" s → free_of "_" (pretty_N_go x s).
Proof.
  revert s. induction (N.lt_wf_0 x) as [x _ IH]; intros s Hs.
  destruct (decide (x = 0%N)) as [->|Hx]; [by rewrite pretty_N_go_0|].
  rewrite pretty_N_go_step by lia. apply IH.
  - apply N.div_lt; lia.
  - split; [apply pretty_N_char_not_underscore|done].
Qed.

Lemma pretty_N_free (x : N) : free_of "_" (pretty x).
Proof.
  unfold pretty, pretty_N. case_decide; [by cbn|].
  by apply pretty_N_go_free.
Qed.

Lemma cast_string_free (n : Z) : free_of "_" (Spark.cast_string n).
Proof.
  unfold Spark.cast_string, pretty, pretty_Z. destruct n as [|p|p].
  - by cbn.
  - apply pretty_N_free.
  - split; [done|]. apply pretty_N_free.
Qed.

Lemma app_separator_inj (c : Ascii.ascii) (a a' b b' : string) :
  free_of c a → free_of c a' →
  a +:+ String c b = a' +:+ String c b' → a = a' ∧ b = b'.
Proof.
  revert a'. induction a as [|x a IH]; intros [|x' a'] Ha Ha' Heq; cbn in *.
  - by simplify_eq.
  - simplify_eq. by destruct Ha'.
  - simplify_eq. by destruct Ha.
  - destruct Ha as [_ Ha], Ha' as [_ Ha']. simplify_eq.
    destruct (IH a' Ha Ha') as [-> ->]; done.
Qed.

(** X1: [concat(user_id, "_", session_group)] determines both numbers: the
    session identifiers of two users never coincide. *)
Theorem session_id_determines_user_and_number (u g u' g' : Z) :
  make_session_id u g = make_session_id u' g' → u = u' ∧ g = g'.
Proof.
  unfold make_session_id. intros Heq.
  apply (app_separator_inj "_") in Heq as [Hu Hg]; [|apply cast_string_free..].
  split; by apply (inj pretty).
Qed.

Lemma session_id_determines_user_and_number_witness :
  (1:Z) = 1 ∧ (2:Z) = 2.
Proof. apply (session_id_determines_user_and_number 1 2 1 2). reflexivity. Defined.

(** ** Users are sessionized independently *)

Lemma users_partition (u : Z) (df : list Event) :
  u ∈ remove_dups (user_id <$> df) ↔ partition_of u df ≠ [].
Proof.
  rewrite elem_of_remove_dups, list_elem_of_fmap. unfold partition_of. split.
  - intros (e & -> & He) Hnil.
    assert (e ∈ filter (λ e', user_id e' = user_id e) df) as Hin
      by by apply list_elem_of_filter.
    rewrite Hnil in Hin. by apply elem_of_nil in Hin.
  - intros Hne. destruct (filter (λ e, user_id e = u) df) as [|e l] eqn:Hf; [done|].
    assert (e ∈ filter (λ e, user_id e = u) df) as [Hu He]%list_elem_of_filter
      by (rewrite Hf; left).
    eauto.
Qed.

Lemma merge_sort_nil_inv (l : list Event) : merge_sort ts_le l = [] → l = [].
Proof.
  intros Hnil. apply Permutation_nil_r. by rewrite <- Hnil, merge_sort_Permutation.
Qed.

Lemma sorted_timestamps_partition (u : Z) (df df' : list Event) :
  partition_of u df' ≡ₚ partition_of u df →
  event_timestamp <$> merge_sort ts_le (partition_of u df')
  = event_timestamp <$> merge_sort ts_le (partition_of u df).
Proof.
  intros Hp. apply (Sorted_unique Z.le); [apply sorted_partition_timestamps..|].
  by rewrite !merge_sort_Permutation, Hp.
Qed.

(** The rows of a user, as the events of the user's ordered partition. *)
Lemma user_rows_as_partition (session_timeout : Z) (df : list Event) (u : Z) :
  user_rows u (user_window df ≫= sessionize_partition session_timeout)
  = sessionize_partition session_timeout (merge_sort ts_le (partition_of u df)).
Proof.
  rewrite user_rows_sessionized. case_decide as Hu; [done|].
  rewrite users_partition in Hu. apply dec_stable in Hu. by rewrite Hu.
Qed.

(** X2: the session identifiers of a user depend on that user's events only:
    two inputs that hold the same events of the user, whatever else they
    hold, give the user the same rows. *)
Theorem sessions_depend_on_own_events (self : Config) (df df' : list Event)
    (out out' : list SessionizedEvent) (u : Z) :
  _sessionize_events self df = Ok out →
  _sessionize_events self df' = Ok out' →
  partition_of u df' ≡ₚ partition_of u df →
  user_rows u out' ≡ₚ user_rows u out.
Proof.
  intros Hout Hout' Hp.
  destruct (session_timeout_seconds self) as [session_timeout|] eqn:Hc.
  2:{ unfold _sessionize_events in Hout. by rewrite Hc in Hout. }
  rewrite (sessionize_events_inv _ _ _ _ Hc Hout),
    (sessionize_events_inv _ _ _ _ Hc Hout').
  rewrite !user_rows_as_partition, !sessionize_partition_fmap.
  rewrite (sorted_timestamps_partition u df df' Hp).
  apply fmap_Permutation. by rewrite !merge_sort_Permutation.
Qed.

Lemma sessions_depend_on_own_events_witness :
  user_rows 1 sample_sessionized
  ≡ₚ user_rows 1 [sz (ev 1 0 "view") "1_1"; sz (ev 1 30 "cart") "1_1";
                  sz (ev 1 7200 "purchase") "1_2"].
Proof.
  apply (sessions_depend_on_own_events (cfg (Some 1800))
           [ev 1 0 "view"; ev 1 30 "cart"; ev 1 7200 "purchase"] sample_events).
  - reflexivity.
  - reflexivity.
  - vm_compute. apply Permutation_cons_append.
Defined.

(** ** Session numbers *)

Lemma partition_session_ids (session_timeout : Z) (df : list Event) (u : Z) :
  let part := merge_sort ts_le (partition_of u df) in
  session_id <$> sessionize_partition session_timeout part
  = make_session_id u
      <$> ((λ e, group_from session_timeout None (event_timestamp <$> part)
                   (event_timestamp e)) <$> part).
Proof.
  intros part. rewrite sessionize_partition_fmap, <- !list_fmap_compose.
  apply list_fmap_ext. intros i e He. cbn.
  by apply list_elem_of_lookup_2, sorted_partition_user in He as [-> _].
Qed.

(** X3: for a timeout that is not negative, the session numbers of a user,
    read along the user's rows in chronological order, start at 1 and go
    up in steps of one: no number is skipped. *)
Theorem session_numbers_consecutive (self : Config) (session_timeout : Z)
    (df : list Event) (out : list SessionizedEvent) (u : Z) :
  session_timeout_seconds self = Some session_timeout →
  0 ≤ session_timeout →
  _sessionize_events self df = Ok out →
  ∃ gs : list Z,
    session_id <$> user_rows u out = make_session_id u <$> gs ∧
    (∀ g, head gs = Some g → g = 1) ∧
    (∀ i g g', gs !! i = Some g → gs !! S i = Some g' → g' = g ∨ g' = g + 1).
Proof.
  intros Hc Hto Hout. rewrite (sessionize_events_inv _ _ _ _ Hc Hout).
  rewrite user_rows_as_partition. eexists. split; [apply partition_session_ids|].
  pose proof (sorted_partition_timestamps u df) as Hs.
  set (part := merge_sort ts_le (partition_of u df)) in *. split.
  - intros g. destruct part as [|e part]; [done|]. cbn [fmap list_fmap head].
    intros [= <-]. by apply group_from_first.
  - intros i g g'. rewrite !list_lookup_fmap.
    destruct (part !! i) as [ea|] eqn:Ha; [|done].
    destruct (part !! S i) as [eb|] eqn:Hb; [|done].
    cbn. intros [= <-] [= <-].
    destruct (partition_gap_rule session_timeout part i ea eb Hto Hs Ha Hb)
      as (_ & Hstep & _).
    cbn zeta in Hstep. rewrite Hstep. case_bool_decide; lia.
Qed.

Lemma session_numbers_consecutive_witness :
  ∃ gs : list Z,
    session_id <$> user_rows 1 sample_sessionized = make_session_id 1 <$> gs ∧
    (∀ g, head gs = Some g → g = 1) ∧
    (∀ i g g', gs !! i = Some g → gs !! S i = Some g' → g' = g ∨ g' = g + 1).
Proof.
  apply (session_numbers_consecutive (cfg (Some 1800)) 1800 sample_events).
  - reflexivity.
  - lia.
  - reflexivity.
Defined.

Lemma neighbour_gaps_cons (p t : Z) (ts : list Z) :
  neighbour_gaps (p :: t :: ts)
  = (Spark.unix_timestamp t - Spark.unix_timestamp p) :: neighbour_gaps (t :: ts).
Proof. done. Qed.

Lemma flags_from_gaps (session_timeout p : Z) (ts : list Z) :
  flags_from session_timeout (Some p) ts
  = (λ d, if bool_decide (d > session_timeout) then 1 else 0)
      <$> neighbour_gaps (p :: ts).
Proof.
  revert p. induction ts as [|t ts IH]; intros p; [done|].
  rewrite neighbour_gaps_cons, fmap_cons. cbn [flags_from]. rewrite IH.
  f_equal. apply flag_of_diff.
Qed.

Lemma Zsum_indicator (P : Z → Prop) `{∀ d, Decision (P d)} (l : list Z) :
  Spark.Zsum ((λ d, if bool_decide (P d) then 1 else 0) <$> l)
  = Z.of_nat (length (filter P l)).
Proof.
  unfold Spark.Zsum. induction l as [|d l IH]; [done|].
  rewrite fmap_cons, filter_cons. cbn [foldr]. rewrite IH.
  case_bool_decide; case_decide; try done; cbn [length]; lia.
Qed.

(** At a key that no row of the partition exceeds, the running sum is the
    sum of the whole flag column. *)
Lemma group_from_top (session_timeout : Z) (p : option Z) (ts : list Z) (k : Z) :
  (∀ t, t ∈ ts → t ≤ k) →
  group_from session_timeout p ts k = Spark.Zsum (flags_from session_timeout p ts).
Proof.
  revert p. induction ts as [|t ts IH]; intros p Hk; [done|].
  rewrite group_from_cons, decide_True by (apply Hk; left).
  rewrite IH; [done|]. intros t' Ht'. apply Hk. by right.
Qed.

Lemma Sorted_last_max (l : list Z) (k : Z) :
  Sorted Z.le l → last l = Some k → ∀ t, t ∈ l → t ≤ k.
Proof.
  intros Hs Hlast t (j & Hj)%list_elem_of_lookup. rewrite last_lookup in Hlast.
  apply (Sorted_lookup_le l j (pred (length l))); [done| |done..].
  apply lookup_lt_Some in Hj. lia.
Qed.

(** X4: for every timeout, the session number of a user's chronologically
    last event is 1 plus the number of neighbouring events of the user
    whose time difference exceeds the timeout. *)
Theorem last_session_number (self : Config) (session_timeout : Z)
    (df : list Event) (out : list SessionizedEvent) (u : Z) :
  session_timeout_seconds self = Some session_timeout →
  _sessionize_events self df = Ok out →
  u ∈ user_id <$> df →
  let gaps := neighbour_gaps (event_timestamp ∘ sz_event <$> user_rows u out) in
  Sorted Z.le (event_timestamp ∘ sz_event <$> user_rows u out) ∧
  last (session_id <$> user_rows u out)
  = Some (make_session_id u
            (1 + Z.of_nat (length (filter (λ d, d > session_timeout) gaps)))).
Proof.
  intros Hc Hout Hu. rewrite (sessionize_events_inv _ _ _ _ Hc Hout).
  assert (event_timestamp ∘ sz_event
            <$> user_rows u (user_window df ≫= sessionize_partition session_timeout)
          = event_timestamp <$> merge_sort ts_le (partition_of u df)) as Hts.
  { rewrite user_rows_as_partition, sessionize_partition_fmap, <- list_fmap_compose.
    by apply list_fmap_ext. }
  rewrite Hts. cbn zeta. split; [apply sorted_partition_timestamps|].
  rewrite user_rows_as_partition, partition_session_ids.
  pose proof (sorted_partition_timestamps u df) as Hs.
  pose proof (sorted_partition_nonempty u df Hu) as Hne.
  set (part := merge_sort ts_le (partition_of u df)) in *.
  rewrite !fmap_last.
  destruct (last part) as [e|] eqn:Hlast; [|by apply last_None in Hlast].
  cbn. do 2 f_equal.
  rewrite group_from_top.
  2:{ apply (Sorted_last_max _ _ Hs). by rewrite fmap_last, Hlast. }
  destruct part as [|e0 part]; [done|]. rewrite fmap_cons. cbn [flags_from].
  rewrite flags_from_gaps. change (Spark.Zsum (?x :: ?l)) with (x + Spark.Zsum l).
  rewrite (Zsum_indicator (λ d, d > session_timeout)). done.
Qed.

Lemma last_session_number_witness :
  let gaps := neighbour_gaps (event_timestamp ∘ sz_event <$> user_rows 1 sample_sessionized) in
  Sorted Z.le (event_timestamp ∘ sz_event <$> user_rows 1 sample_sessionized) ∧
  last (session_id <$> user_rows 1 sample_sessionized)
  = Some (make_session_id 1 (1 + Z.of_nat (length (filter (λ d, d > 1800) gaps)))).
Proof.
  apply (last_session_number (cfg (Some 1800)) 1800 sample_events).
  - reflexivity.
  - reflexivity.
  - apply (list_elem_of_lookup_2 _ 0%nat). reflexivity.
Defined.

(** ** A negative timeout *)

Lemma unix_timestamp_mono (a b : Z) :
  a ≤ b → Spark.unix_timestamp a ≤ Spark.unix_timestamp b.
Proof. intros. unfold Spark.unix_timestamp. by apply Z.quot_le_mono. Qed.

Lemma sorted_after_cons (p : option Z) (t : Z) (ts : list Z) :
  sorted_after p (t :: ts) →
  sorted_after (Some t) ts ∧ (∀ q, p = Some q → q ≤ t).
Proof.
  destruct p as [q|]; cbn.
  - intros [Hs Hhd]%Sorted_inv. apply HdRel_inv in Hhd. split; [done|]. by intros ? [= <-].
  - intros Hs. split; [done|]. by intros ? [=].
Qed.

(** With a negative timeout every row of an ordered partition is flagged. *)
Lemma flag_negative_timeout (session_timeout : Z) (p : option Z) (t : Z) :
  session_timeout < 0 → (∀ q, p = Some q → q ≤ t) →
  flag_of session_timeout
    (Spark.minus (Some (Spark.unix_timestamp t)) (Spark.unix_timestamp <$> p)) = 1.
Proof.
  intros Hto Hp. destruct p as [q|]; [|done]. cbn.
  rewrite flag_of_diff, bool_decide_eq_true_2; [done|].
  pose proof (unix_timestamp_mono q t (Hp q eq_refl)). lia.
Qed.

Lemma group_from_strict (session_timeout : Z) (p : option Z) (ts : list Z) (k k' : Z) :
  session_timeout < 0 → sorted_after p ts → k < k' → k' ∈ ts →
  group_from session_timeout p ts k < group_from session_timeout p ts k'.
Proof.
  intros Hto. revert p. induction ts as [|t ts IH]; intros p Hs Hk Hin.
  { by apply elem_of_nil in Hin. }
  apply sorted_after_cons in Hs as [Hs Hp].
  rewrite !group_from_cons, flag_negative_timeout by done.
  pose proof (group_from_mono session_timeout (Some t) ts k k') as Hmono.
  apply elem_of_cons in Hin as [->|Hin].
  - rewrite (decide_True (P := t ≤ t)), (decide_False (P := t ≤ k)) by lia. lia.
  - specialize (IH (Some t) Hs Hk Hin). repeat case_decide; lia.
Qed.

(** X5: with a negative timeout, which the lookup accepts, two events of a
    user are in the same session exactly when their timestamps are
    identical. *)
Theorem negative_timeout_splits_distinct_timestamps (self : Config)
    (session_timeout : Z) (df : list Event) (out : list SessionizedEvent)
    (r1 r2 : SessionizedEvent) :
  session_timeout_seconds self = Some session_timeout →
  session_timeout < 0 →
  _sessionize_events self df = Ok out →
  r1 ∈ out → r2 ∈ out →
  user_id (sz_event r1) = user_id (sz_event r2) →
  (session_id r1 = session_id r2
   ↔ event_timestamp (sz_event r1) = event_timestamp (sz_event r2)).
Proof.
  intros Hc Hto Hout. rewrite (sessionize_events_inv _ _ _ _ Hc Hout).
  intros (e1 & -> & He1)%sessionized_elem_of (e2 & -> & He2)%sessionized_elem_of.
  unfold annotate. cbn [sz_event session_id]. intros Hu. rewrite Hu. split.
  2:{ by intros ->. }
  intros Hid%make_session_id_inj.
  pose proof (sorted_partition_timestamps (user_id e2) df) as Hs.
  assert (∀ e, e ∈ df → user_id e = user_id e2 →
            event_timestamp e
            ∈ event_timestamp <$> merge_sort ts_le (partition_of (user_id e2) df))
    as Hin.
  { intros e He Hue. apply list_elem_of_fmap. exists e. split; [done|].
    rewrite merge_sort_Permutation. by apply list_elem_of_filter. }
  destruct (Z.lt_trichotomy (event_timestamp e1) (event_timestamp e2))
    as [Hlt|[Heq|Hgt]]; [|done|].
  - pose proof (group_from_strict session_timeout None _ _ _ Hto Hs Hlt
                  (Hin e2 He2 eq_refl)). lia.
  - pose proof (group_from_strict session_timeout None _ _ _ Hto Hs Hgt
                  (Hin e1 He1 Hu)). lia.
Qed.

Lemma negative_timeout_splits_distinct_timestamps_witness :
  session_id (sz (ev 1 0 "view") "1_1") = session_id (sz (ev 1 1 "cart") "1_2")
  ↔ event_timestamp (sz_event (sz (ev 1 0 "view") "1_1"))
    = event_timestamp (sz_event (sz (ev 1 1 "cart") "1_2")).
Proof.
  apply (negative_timeout_splits_distinct_timestamps (cfg (Some (-60))) (-60)
           close_events [sz (ev 1 0 "view") "1_1"; sz (ev 1 1 "cart") "1_2"]).
  - reflexivity.
  - lia.
  - reflexivity.
  - apply (list_elem_of_lookup_2 _ 0%nat). reflexivity.
  - apply (list_elem_of_lookup_2 _ 1%nat). reflexivity.
  - reflexivity.
Defined.

(** ** The grouped session rows *)

Lemma foldr_min_spec (t : Z) (ts : list Z) :
  (∀ x, x ∈ t :: ts → foldr Z.min t ts ≤ x) ∧ foldr Z.min t ts ∈ t :: ts.
Proof.
  induction ts as [|y ts [IHle IHin]]; cbn [foldr].
  - split; [|left]. by intros x ->%list_elem_of_singleton.
  - split.
    + intros x Hx. assert (x = y ∨ x ∈ t :: ts) as [->|Hx'].
      { apply elem_of_cons in Hx as [->|Hx]; [right; left|].
        apply elem_of_cons in Hx as [->|Hx]; [by left|by right; right]. }
      * lia.
      * specialize (IHle x Hx'). lia.
    + destruct (Z.min_spec y (foldr Z.min t ts)) as [[_ ->]|[_ ->]].
      * right; left.
      * apply elem_of_cons in IHin as [->|IHin]; [left|by right; right].
Qed.

Lemma foldr_max_spec (t : Z) (ts : list Z) :
  (∀ x, x ∈ t :: ts → x ≤ foldr Z.max t ts) ∧ foldr Z.max t ts ∈ t :: ts.
Proof.
  induction ts as [|y ts [IHle IHin]]; cbn [foldr].
  - split; [|left]. by intros x ->%list_elem_of_singleton.
  - split.
    + intros x Hx. assert (x = y ∨ x ∈ t :: ts) as [->|Hx'].
      { apply elem_of_cons in Hx as [->|Hx]; [right; left|].
        apply elem_of_cons in Hx as [->|Hx]; [by left|by right; right]. }
      * lia.
      * specialize (IHle x Hx'). lia.
    + destruct (Z.max_spec y (foldr Z.max t ts)) as [[_ ->]|[_ ->]].
      * apply elem_of_cons in IHin as [->|IHin]; [left|by right; right].
      * right; left.
Qed.

Lemma remove_dups_length_le `{EqDecision A} (l : list A) :
  (length (remove_dups l) ≤ length l)%nat.
Proof.
  induction l as [|x l IH]; [done|]. cbn [remove_dups].
  case_decide; cbn [length]; lia.
Qed.

Lemma omap_length_le {A B} (f : A → option B) (l : list A) :
  (length (omap f l) ≤ length l)%nat.
Proof.
  induction l as [|x l IH]; [done|]. cbn [omap list_omap].
  destruct (f x); cbn [length]; lia.
Qed.

(** What one row of the grouping holds. *)
Lemma aggregate_group_Some (k : Z * string) (rows : list SessionizedEvent) (a : SessionAgg) :
  aggregate_group k rows = Some a →
  (sa_user_id a, sa_session_id a) = k ∧
  rows ≠ [] ∧
  total_events a = Z.of_nat (length rows) ∧
  (∀ r, r ∈ rows →
     session_start_time a ≤ event_timestamp (sz_event r) ≤ session_end_time a) ∧
  (∃ r, r ∈ rows ∧ event_timestamp (sz_event r) = session_start_time a) ∧
  (∃ r, r ∈ rows ∧ event_timestamp (sz_event r) = session_end_time a) ∧
  0 ≤ distinct_products_viewed a ≤ total_events a ∧
  NoDup (unique_event_types a) ∧
  (∀ ty, ty ∈ unique_event_types a
         ↔ ∃ r, r ∈ rows ∧ event_type (sz_event r) = Some ty).
Proof.
  assert (Z.of_nat (length (remove_dups (omap (product_id ∘ sz_event) rows)))
          ≤ Z.of_nat (length rows)) as Hprod.
  { pose proof (remove_dups_length_le (omap (product_id ∘ sz_event) rows)).
    pose proof (omap_length_le (product_id ∘ sz_event) rows). lia. }
  assert (∀ ty, ty ∈ remove_dups (omap (event_type ∘ sz_event) rows)
                ↔ ∃ r, r ∈ rows ∧ event_type (sz_event r) = Some ty) as Hty.
  { intros ty. by rewrite elem_of_remove_dups, list_elem_of_omap. }
  pose proof (NoDup_remove_dups (omap (event_type ∘ sz_event) rows)) as Hnd.
  unfold aggregate_group. destruct rows as [|r0 rows]; [done|].
  rewrite fmap_cons. intros [= <-].
  cbn [sa_user_id sa_session_id session_start_time session_end_time total_events
       distinct_products_viewed unique_event_types].
  destruct (foldr_min_spec (event_timestamp (sz_event r0))
              (event_timestamp ∘ sz_event <$> rows)) as [Hminle Hminin].
  destruct (foldr_max_spec (event_timestamp (sz_event r0))
              (event_timestamp ∘ sz_event <$> rows)) as [Hmaxle Hmaxin].
  assert (∀ x, x ∈ event_timestamp (sz_event r0) :: (event_timestamp ∘ sz_event <$> rows)
               ↔ ∃ r, r ∈ r0 :: rows ∧ event_timestamp (sz_event r) = x) as Hmem.
  { intros x.
    change (event_timestamp (sz_event r0) :: (event_timestamp ∘ sz_event <$> rows))
      with (event_timestamp ∘ sz_event <$> r0 :: rows).
    rewrite list_elem_of_fmap. split; intros (r & ? & ?); eauto. }
  split_and!.
  - by destruct k.
  - done.
  - done.
  - intros r Hr. split; [apply Hminle|apply Hmaxle]; apply Hmem; eauto.
  - by apply Hmem.
  - by apply Hmem.
  - lia.
  - exact Hprod.
  - exact Hnd.
  - exact Hty.
Qed.

Lemma aggregate_group_None (k : Z * string) (rows : list SessionizedEvent) :
  aggregate_group k rows = None → rows = [].
Proof. unfold aggregate_group. by destruct rows. Qed.

Lemma session_rows_nonempty (df : list SessionizedEvent) (k : Z * string) :
  k ∈ session_key <$> df → session_rows k df ≠ [].
Proof.
  intros (r & -> & Hr)%list_elem_of_fmap Hnil.
  assert (r ∈ session_rows (session_key r) df) as Hin
    by by apply list_elem_of_filter.
  rewrite Hnil in Hin. by apply elem_of_nil in Hin.
Qed.

Lemma session_features_df_elem_of (df : list SessionizedEvent) (a : SessionAgg) :
  a ∈ session_features_df df
  ↔ ∃ k, k ∈ session_key <$> df ∧ aggregate_group k (session_rows k df) = Some a.
Proof.
  unfold session_features_df. rewrite list_elem_of_omap.
  by setoid_rewrite elem_of_remove_dups.
Qed.

(** X6: the grouping returns one row for each [(user_id, session_id)] pair of
    its input, and no other row. *)
Theorem session_rows_one_per_key (df : list SessionizedEvent) :
  (λ a, (sa_user_id a, sa_session_id a)) <$> session_features_df df
  = remove_dups (session_key <$> df).
Proof.
  unfold session_features_df.
  assert (∀ k, k ∈ remove_dups (session_key <$> df) → k ∈ session_key <$> df) as Hks
    by (intros k; apply elem_of_remove_dups).
  induction (remove_dups (session_key <$> df)) as [|k ks IH]; [done|].
  cbn [omap list_omap].
  destruct (aggregate_group k (session_rows k df)) as [a|] eqn:Ha.
  - rewrite fmap_cons. apply aggregate_group_Some in Ha as [-> _].
    f_equal. apply IH. intros k' Hk'. apply Hks. by right.
  - apply aggregate_group_None in Ha.
    by destruct (session_rows_nonempty df k (Hks k ltac:(left))).
Qed.

(** X7: a row of the grouping, against the events of its session: it counts
    them, its start and end are the earliest and the latest of their
    timestamps, it has no more distinct products than events, and its
    event types are theirs, each once. *)
Theorem session_row_summarises_its_events (df : list SessionizedEvent) (a : SessionAgg) :
  a ∈ session_features_df df →
  let rows := session_rows (sa_user_id a, sa_session_id a) df in
  1 ≤ total_events a ∧
  total_events a = Z.of_nat (length rows) ∧
  (∀ r, r ∈ rows →
     session_start_time a ≤ event_timestamp (sz_event r) ≤ session_end_time a) ∧
  (∃ r, r ∈ rows ∧ event_timestamp (sz_event r) = session_start_time a) ∧
  (∃ r, r ∈ rows ∧ event_timestamp (sz_event r) = session_end_time a) ∧
  session_start_time a ≤ session_end_time a ∧
  0 ≤ distinct_products_viewed a ≤ total_events a ∧
  NoDup (unique_event_types a) ∧
  (∀ ty, ty ∈ unique_event_types a
         ↔ ∃ r, r ∈ rows ∧ event_type (sz_event r) = Some ty).
Proof.
  intros (k & Hk & Ha)%session_features_df_elem_of.
  apply aggregate_group_Some in Ha
    as (<- & Hne & Hn & Hbound & Hstart & Hend & Hprod & Hnd & Hty).
  cbn zeta. split_and!; try done.
  - destruct (session_rows _ df); [done|]. cbn [length] in Hn. lia.
  - destruct Hstart as (r & Hr & _). specialize (Hbound r Hr). lia.
  - lia.
  - lia.
Qed.

Lemma session_row_summarises_its_events_witness :
  let a := {| sa_user_id := 1; sa_session_id := "1_1";
              session_start_time := 0;
              session_end_time := 30 * Spark.MICROS_PER_SECOND;
              total_events := 2; distinct_products_viewed := 0;
              unique_event_types := ["view"; "cart"] |} in
  let rows := session_rows (sa_user_id a, sa_session_id a) sample_sessionized in
  1 ≤ total_events a ∧
  total_events a = Z.of_nat (length rows) ∧
  (∀ r, r ∈ rows →
     session_start_time a ≤ event_timestamp (sz_event r) ≤ session_end_time a) ∧
  (∃ r, r ∈ rows ∧ event_timestamp (sz_event r) = session_start_time a) ∧
  (∃ r, r ∈ rows ∧ event_timestamp (sz_event r) = session_end_time a) ∧
  session_start_time a ≤ session_end_time a ∧
  0 ≤ distinct_products_viewed a ≤ total_events a ∧
  NoDup (unique_event_types a) ∧
  (∀ ty, ty ∈ unique_event_types a
         ↔ ∃ r, r ∈ rows ∧ event_type (sz_event r) = Some ty).
Proof.
  apply (session_row_summarises_its_events sample_sessionized).
  apply (list_elem_of_lookup_2 _ 1%nat). reflexivity.
Defined.


(** X8: the grouping loses and repeats no event: the [total_events] of all
    rows add up to the number of input rows. *)
Theorem session_rows_count_every_event (df : list SessionizedEvent) :
  Spark.Zsum (total_events <$> session_features_df df) = Z.of_nat (length df).
Proof.
  rewrite <- (group_by_Permutation session_key df) at 2.
  unfold session_features_df, session_rows.
  induction (remove_dups (session_key <$> df)) as [|k ks IH]; [done|].
  cbn [omap list_omap mbind list_bind]. rewrite length_app, Nat2Z.inj_add, <- IH.
  destruct (aggregate_group k _) as [a|] eqn:Ha.
  - apply aggregate_group_Some in Ha as (_ & _ & Hn & _).
    rewrite fmap_cons. change (Spark.Zsum (?x :: ?l)) with (x + Spark.Zsum l).
    by rewrite Hn.
  - apply aggregate_group_None in Ha. by rewrite Ha.
Qed.

(** X9: the derived columns of a session row: the duration is never
    negative and is 0 for a session of one event, and [hour_of_day] is an
    hour of the day. *)
Theorem session_derived_columns (funnel : list string → string)
    (df : list SessionizedEvent) (a : SessionAgg) :
  a ∈ session_features_df df →
  let s := with_features funnel a in
  0 ≤ session_duration_seconds s ∧
  (total_events a = 1 → session_duration_seconds s = 0) ∧
  0 ≤ hour_of_day s < 24.
Proof.
  intros (k & Hk & Ha)%session_features_df_elem_of.
  apply aggregate_group_Some in Ha
    as (_ & Hne & Hn & Hbound & (r1 & Hr1 & Hstart) & (r2 & Hr2 & Hend) & _).
  cbn [with_features session_duration_seconds hour_of_day].
  unfold session_duration_column, hour_of_day_column. split_and!.
  - pose proof (Hbound r1 Hr1).
    pose proof (unix_timestamp_mono (session_start_time a) (session_end_time a)). lia.
  - intros H1. rewrite H1 in Hn.
    destruct (session_rows k df) as [|r [|r' rows]]; [done| |cbn [length] in Hn; lia].
    apply list_elem_of_singleton in Hr1 as ->. apply list_elem_of_singleton in Hr2 as ->.
    rewrite <- Hstart, <- Hend. lia.
  - unfold Spark.hour. apply Z.mod_pos_bound. lia.
  - unfold Spark.hour. apply Z.mod_pos_bound. lia.
Qed.

Lemma session_derived_columns_witness :
  let a := {| sa_user_id := 1; sa_session_id := "1_2";
              session_start_time := 7200 * Spark.MICROS_PER_SECOND;
              session_end_time := 7200 * Spark.MICROS_PER_SECOND;
              total_events := 1; distinct_products_viewed := 0;
              unique_event_types := ["purchase"] |} in
  let s := with_features (funnel_stage_chain Spark.array_contains) a in
  0 ≤ session_duration_seconds s ∧
  (total_events a = 1 → session_duration_seconds s = 0) ∧
  0 ≤ hour_of_day s < 24.
Proof.
  apply (session_derived_columns _ sample_sessionized).
  apply (list_elem_of_lookup_2 _ 2%nat). reflexivity.
Defined.

(** ** Sessionizer and grouping together *)

Lemma sessionized_contiguous (session_timeout : Z) (df : list Event)
    (r1 r2 r : SessionizedEvent) :
  let out := user_window df ≫= sessionize_partition session_timeout in
  r1 ∈ out → r2 ∈ out → r ∈ out →
  user_id (sz_event r1) = user_id (sz_event r) →
  user_id (sz_event r2) = user_id (sz_event r) →
  session_id r1 = session_id r2 →
  event_timestamp (sz_event r1) ≤ event_timestamp (sz_event r)
    ≤ event_timestamp (sz_event r2) →
  session_id r = session_id r1.
Proof.
  intros out (e1 & -> & _)%sessionized_elem_of (e2 & -> & _)%sessionized_elem_of
    (e & -> & _)%sessionized_elem_of.
  unfold annotate. cbn [sz_event session_id]. intros -> ->.
  intros Hid%make_session_id_inj [Hlo Hhi]. f_equal.
  pose proof (group_from_mono session_timeout None
    (event_timestamp <$> merge_sort ts_le (partition_of (user_id e) df)) _ _ Hlo).
  pose proof (group_from_mono session_timeout None
    (event_timestamp <$> merge_sort ts_le (partition_of (user_id e) df)) _ _ Hhi).
  lia.
Qed.

Lemma session_rows_elem_of (k : Z * string) (df : list SessionizedEvent)
    (r : SessionizedEvent) :
  r ∈ session_rows k df ↔ session_key r = k ∧ r ∈ df.
Proof. unfold session_rows. by rewrite list_elem_of_filter. Qed.

(** X10: the sessions that the grouping builds from the sessionizer's output
    do not overlap: of two different session rows of one user, one ends
    before the other starts.  This holds for every timeout. *)
Theorem sessions_do_not_overlap (self : Config) (df : list Event)
    (out : list SessionizedEvent) (a1 a2 : SessionAgg) :
  _sessionize_events self df = Ok out →
  a1 ∈ session_features_df out → a2 ∈ session_features_df out →
  sa_user_id a1 = sa_user_id a2 → a1 ≠ a2 →
  session_end_time a1 < session_start_time a2 ∨
  session_end_time a2 < session_start_time a1.
Proof.
  intros Hout.
  destruct (session_timeout_seconds self) as [session_timeout|] eqn:Hc.
  2:{ unfold _sessionize_events in Hout. by rewrite Hc in Hout. }
  rewrite (sessionize_events_inv _ _ _ _ Hc Hout).
  set (out' := user_window df ≫= sessionize_partition session_timeout).
  intros (k1 & Hk1 & Ha1)%session_features_df_elem_of
         (k2 & Hk2 & Ha2)%session_features_df_elem_of Hu Hne.
  pose proof Ha1 as Ha1'. pose proof Ha2 as Ha2'.
  apply aggregate_group_Some in Ha1'
    as (Hkey1 & _ & _ & _ & (s1 & Hs1 & Hs1t) & (e1 & He1 & He1t) & _).
  apply aggregate_group_Some in Ha2'
    as (Hkey2 & _ & _ & _ & (s2 & Hs2 & Hs2t) & (e2 & He2 & He2t) & _).
  apply session_rows_elem_of in Hs1 as [Hs1k Hs1], He1 as [He1k He1],
    Hs2 as [Hs2k Hs2], He2 as [He2k He2].
  assert (k1 ≠ k2) as Hk by (intros ->; congruence).
  assert (∀ r, session_key r = k1 → user_id (sz_event r) = sa_user_id a1) as Hu1.
  { intros r Hr. rewrite <- Hkey1 in Hr. by injection Hr. }
  assert (∀ r, session_key r = k2 → user_id (sz_event r) = sa_user_id a1) as Hu2.
  { intros r Hr. rewrite <- Hkey2 in Hr. injection Hr. congruence. }
  assert (∀ r r', session_key r = k1 → session_key r' = k2 →
            session_id r ≠ session_id r') as Hids.
  { intros r r' Hr Hr' Hid. apply Hk. rewrite <- Hr, <- Hr'. unfold session_key.
    by rewrite Hid, (Hu1 r Hr), (Hu2 r' Hr'). }
  assert (∀ r r', session_key r = session_key r' → session_id r = session_id r') as Hsame.
  { intros r r'. unfold session_key. congruence. }
  destruct (decide (session_end_time a1 < session_start_time a2)) as [|Hn1]; [by left|].
  destruct (decide (session_end_time a2 < session_start_time a1)) as [|Hn2]; [by right|].
  exfalso.
  destruct (decide (session_start_time a1 ≤ session_start_time a2)) as [Hle|Hle].
  - apply (Hids s1 s2 Hs1k Hs2k). symmetry.
    apply (sessionized_contiguous session_timeout df s1 e1 s2); try done.
    + by rewrite (Hu1 s1 Hs1k), (Hu2 s2 Hs2k).
    + by rewrite (Hu1 e1 He1k), (Hu2 s2 Hs2k).
    + apply Hsame. congruence.
    + lia.
  - apply (Hids s1 s2 Hs1k Hs2k).
    apply (sessionized_contiguous session_timeout df s2 e2 s1); try done.
    + by rewrite (Hu1 s1 Hs1k), (Hu2 s2 Hs2k).
    + by rewrite (Hu1 s1 Hs1k), (Hu2 e2 He2k).
    + apply Hsame. congruence.
    + lia.
Qed.

Lemma sessions_do_not_overlap_witness :
  let a1 := {| sa_user_id := 1; sa_session_id := "1_1";
               session_start_time := 0;
               session_end_time := 30 * Spark.MICROS_PER_SECOND;
               total_events := 2; distinct_products_viewed := 0;
               unique_event_types := ["view"; "cart"] |} in
  let a2 := {| sa_user_id := 1; sa_session_id := "1_2";
               session_start_time := 7200 * Spark.MICROS_PER_SECOND;
               session_end_time := 7200 * Spark.MICROS_PER_SECOND;
               total_events := 1; distinct_products_viewed := 0;
               unique_event_types := ["purchase"] |} in
  session_end_time a1 < session_start_time a2 ∨
  session_end_time a2 < session_start_time a1.
Proof.
  apply (sessions_do_not_overlap (cfg (Some 1800)) sample_events sample_sessionized).
  - reflexivity.
  - apply (list_elem_of_lookup_2 _ 1%nat). reflexivity.
  - apply (list_elem_of_lookup_2 _ 2%nat). reflexivity.
  - reflexivity.
  - discriminate.
Defined.

(** Where the running sum grows between two keys, the second of them a
    timestamp reached after a row at or after the first, the two keys are
    more than the timeout apart. *)
Lemma group_from_growth (session_timeout : Z) (p : option Z) (ts : list Z) (k k' : Z) :
  0 ≤ session_timeout → sorted_after p ts →
  k ∈ ts ∨ (∃ q, p = Some q ∧ k ≤ q) →
  group_from session_timeout p ts k < group_from session_timeout p ts k' →
  Spark.unix_timestamp k' - Spark.unix_timestamp k > session_timeout.
Proof.
  intros Hto. revert p. induction ts as [|t ts IH]; intros p Hs Hk Hlt.
  { rewrite !group_from_nil in Hlt. lia. }
  assert (k < k') as Hkk.
  { destruct (decide (k < k')); [done|].
    pose proof (group_from_mono session_timeout p (t :: ts) k' k). lia. }
  apply sorted_after_cons in Hs as [Hs Hp].
  rewrite !group_from_cons in Hlt.
  pose proof (flag_of_range session_timeout
    (Spark.minus (Some (Spark.unix_timestamp t)) (Spark.unix_timestamp <$> p))) as Hf.
  destruct Hk as [Hin|(q & -> & Hkq)].
  - apply elem_of_cons in Hin as [->|Hin].
    + rewrite !decide_True in Hlt by lia.
      apply (IH (Some t)); [done|right; eexists; split; [done|lia]|lia].
    + assert (t ≤ k) as Htk.
      { cbn in Hs. apply (Sorted_StronglySorted _), StronglySorted_inv in Hs as [_ Hall].
        rewrite Forall_forall in Hall. by apply Hall. }
      rewrite !decide_True in Hlt by lia.
      apply (IH (Some t)); [done|by left|lia].
  - specialize (Hp q eq_refl).
    destruct (decide (group_from session_timeout (Some t) ts k
                      < group_from session_timeout (Some t) ts k')) as [Hlt'|Hge].
    + apply (IH (Some t)); [done|right; eexists; split; [done|lia]|done].
    + cbn [fmap option_fmap option_map Spark.minus] in Hlt, Hf.
      rewrite flag_of_diff in Hlt, Hf.
      assert (t ≤ k → flag_of session_timeout
                        (Some (Spark.unix_timestamp t - Spark.unix_timestamp q)) = 0)
        as Hzero.
      { intros Htk. assert (t = q) as -> by lia.
        by rewrite Z.sub_diag, flag_of_zero. }
      rewrite flag_of_diff in Hzero.
      destruct (decide (t ≤ k')) as [Htk'|]; [|repeat case_decide; lia].
      case_bool_decide as Hgap.
      * pose proof (unix_timestamp_mono k q Hkq).
        pose proof (unix_timestamp_mono t k' Htk'). lia.
      * repeat case_decide; lia.
Qed.

(** X11: for a timeout that is not negative, two sessions of one user are
    separated by more than the timeout: from the end of the earlier one to
    the start of the later one, in seconds. *)
Theorem sessions_separated_by_timeout (self : Config) (session_timeout : Z)
    (df : list Event) (out : list SessionizedEvent) (a1 a2 : SessionAgg) :
  session_timeout_seconds self = Some session_timeout →
  0 ≤ session_timeout →
  _sessionize_events self df = Ok out →
  a1 ∈ session_features_df out → a2 ∈ session_features_df out →
  sa_user_id a1 = sa_user_id a2 →
  session_end_time a1 < session_start_time a2 →
  Spark.unix_timestamp (session_start_time a2)
  - Spark.unix_timestamp (session_end_time a1) > session_timeout.
Proof.
  intros Hc Hto Hout. rewrite (sessionize_events_inv _ _ _ _ Hc Hout).
  intros (k1 & Hk1 & Ha1)%session_features_df_elem_of
         (k2 & Hk2 & Ha2)%session_features_df_elem_of Hu Hlt.
  apply aggregate_group_Some in Ha1
    as (Hkey1 & _ & _ & Hb1 & _ & (e1 & He1 & He1t) & _).
  apply aggregate_group_Some in Ha2
    as (Hkey2 & _ & _ & Hb2 & (s2 & Hs2 & Hs2t) & _).
  pose proof (Hb1 s2) as Hb1s. pose proof (Hb2 e1) as Hb2e.
  rewrite session_rows_elem_of in He1, Hs2, Hb1s, Hb2e.
  destruct He1 as [He1k He1], Hs2 as [Hs2k Hs2].
  assert (session_id e1 ≠ session_id s2) as Hid.
  { intros Hid. assert (session_key s2 = k1) as Hs2k1.
    { rewrite <- He1k. unfold session_key. rewrite Hid. f_equal.
      rewrite <- Hkey1 in He1k. rewrite <- Hkey2 in Hs2k.
      injection He1k. injection Hs2k. congruence. }
    specialize (Hb1s (conj Hs2k1 Hs2)). lia. }
  assert (user_id (sz_event e1) = user_id (sz_event s2)) as Hus.
  { rewrite <- Hkey1 in He1k. rewrite <- Hkey2 in Hs2k.
    injection He1k. injection Hs2k. congruence. }
  apply sessionized_elem_of in He1 as (x1 & -> & Hx1), Hs2 as (x2 & -> & Hx2).
  unfold annotate in *. cbn [sz_event session_id] in *.
  rewrite <- He1t, <- Hs2t in Hlt |- *. rewrite Hus in Hid.
  set (T := event_timestamp <$> merge_sort ts_le (partition_of (user_id x2) df)) in *.
  pose proof (group_from_mono session_timeout None T
                (event_timestamp x1) (event_timestamp x2) ltac:(lia)) as Hmono.
  apply (group_from_growth session_timeout None T); [done| | |].
  - apply sorted_partition_timestamps.
  - left. apply list_elem_of_fmap. exists x1. split; [done|].
    rewrite merge_sort_Permutation. by apply list_elem_of_filter.
  - destruct (decide (group_from session_timeout None T (event_timestamp x1)
                      = group_from session_timeout None T (event_timestamp x2)))
      as [Heq|]; [|lia].
    by rewrite Heq in Hid.
Qed.

Lemma sessions_separated_by_timeout_witness :
  let a1 := {| sa_user_id := 1; sa_session_id := "1_1";
               session_start_time := 0;
               session_end_time := 30 * Spark.MICROS_PER_SECOND;
               total_events := 2; distinct_products_viewed := 0;
               unique_event_types := ["view"; "cart"] |} in
  let a2 := {| sa_user_id := 1; sa_session_id := "1_2";
               session_start_time := 7200 * Spark.MICROS_PER_SECOND;
               session_end_time := 7200 * Spark.MICROS_PER_SECOND;
               total_events := 1; distinct_products_viewed := 0;
               unique_event_types := ["purchase"] |} in
  Spark.unix_timestamp (session_start_time a2)
  - Spark.unix_timestamp (session_end_time a1) > 1800.
Proof.
  apply (sessions_separated_by_timeout (cfg (Some 1800)) 1800 sample_events
           sample_sessionized).
  - reflexivity.
  - lia.
  - reflexivity.
  - apply (list_elem_of_lookup_2 _ 1%nat). reflexivity.
  - apply (list_elem_of_lookup_2 _ 2%nat). reflexivity.
  - reflexivity.
  - reflexivity.
Defined.

(** ** The user summaries *)

Lemma avg_no_null (xs : list Z) :
  Spark.avg (Some <$> xs)
  = match xs with
    | [] => None
    | _ => Some (inject_Z (Spark.Zsum xs) / inject_Z (Z.of_nat (length xs)))%Q
    end.
Proof. unfold Spark.avg. rewrite omap_id_Some. by destruct xs. Qed.

Lemma avg_no_null_Permutation (xs ys : list Z) :
  xs ≡ₚ ys → Spark.avg (Some <$> xs) = Spark.avg (Some <$> ys).
Proof.
  intros Hp. rewrite !avg_no_null.
  destruct xs as [|x xs], ys as [|y ys]; try done.
  all: try (by apply Permutation_nil_cons in Hp).
  all: try (symmetry in Hp; by apply Permutation_nil_cons in Hp).
  by rewrite Hp.
Qed.

(** A summary is the same for two orders of the user's sessions that
    agree on the list of starts. *)
Lemma user_summary_Permutation (u : Z) (part part' : list SessionFeatures) :
  part ≡ₚ part' → sf_start <$> part = sf_start <$> part' →
  user_summary u part = user_summary u part'.
Proof.
  intros Hp Hstarts. unfold user_summary.
  assert (Spark.avg (start_gap part) = Spark.avg (start_gap part')) as ->.
  { rewrite !start_gap_spec, Hstarts.
    destruct part as [|s part], part' as [|s' part']; try done.
    all: try (by apply Permutation_nil_cons in Hp).
    all: symmetry in Hp; by apply Permutation_nil_cons in Hp. }
  f_equal.
  - by rewrite !length_fmap, Hp.
  - by rewrite Hp.
  - rewrite !(list_fmap_compose session_duration_seconds Some).
    apply avg_no_null_Permutation. by rewrite Hp.
  - by rewrite Hp.
Qed.

Lemma ordered_sessions_starts (u : Z) (df df' : list SessionFeatures) :
  df ≡ₚ df' →
  sf_start <$> ordered_sessions u df = sf_start <$> ordered_sessions u df'.
Proof.
  intros Hp. apply (Sorted_unique Z.le); [apply ordered_sessions_sorted..|].
  by rewrite !ordered_sessions_Permutation; unfold sessions_of; rewrite Hp.
Qed.

(** X12: the user summaries do not depend on the order of the session rows:
    reordering the input, also among sessions with the same start,
    reorders the output and changes no row. *)
Theorem user_features_order_independent (df df' : list SessionFeatures) :
  df ≡ₚ df' →
  _aggregate_to_user_features df ≡ₚ _aggregate_to_user_features df'.
Proof.
  intros Hp. unfold _aggregate_to_user_features.
  rewrite (list_fmap_ext _ (λ u, user_summary u (ordered_sessions u df'))).
  - apply fmap_Permutation.
    apply NoDup_Permutation; [apply NoDup_remove_dups..|].
    intros u. by rewrite !elem_of_remove_dups, Hp.
  - intros _ u _. apply user_summary_Permutation.
    + rewrite !ordered_sessions_Permutation. unfold sessions_of. by rewrite Hp.
    + by apply ordered_sessions_starts.
Qed.

Lemma user_features_order_independent_witness :
  _aggregate_to_user_features sample_sessions
  ≡ₚ _aggregate_to_user_features (reverse sample_sessions).
Proof.
  apply user_features_order_independent. symmetry. apply reverse_Permutation.
Defined.

Lemma Zsum_indicator_gen {A} (P : A → Prop) `{∀ x, Decision (P x)} (l : list A) :
  Spark.Zsum ((λ x, if bool_decide (P x) then 1 else 0) <$> l)
  = Z.of_nat (length (filter P l)).
Proof.
  unfold Spark.Zsum. induction l as [|x l IH]; [done|].
  rewrite fmap_cons, filter_cons. cbn [foldr]. rewrite IH.
  case_bool_decide; case_decide; try done; cbn [length]; lia.
Qed.






(** X14: a user's summary counts the purchase sessions among the user's
    session rows, never more than [total_sessions], and its
    [avg_session_duration_seconds] is never null: it is the sum of the
    user's durations over [total_sessions]. *)
Theorem user_summary_purchases_and_duration (df : list SessionFeatures) (row : UserSummary) :
  row ∈ _aggregate_to_user_features df →
  let mine := sessions_of (us_user_id row) df in
  total_sessions row = Z.of_nat (length mine) ∧
  total_purchase_sessions row
  = Z.of_nat (length (filter (λ s, funnel_stage s = "completed_purchase") mine)) ∧
  0 ≤ total_purchase_sessions row ≤ total_sessions row ∧
  avg_session_duration_seconds row
  = Some (inject_Z (Spark.Zsum (session_duration_seconds <$> mine))
          / inject_Z (total_sessions row))%Q.
Proof.
  intros (u & -> & Hu)%user_features_elem_of.
  cbn [us_user_id user_summary total_sessions total_purchase_sessions
       avg_session_duration_seconds].
  pose proof (ordered_sessions_Permutation u df) as Hperm.
  assert (Spark.Zsum (purchase_flag <$> ordered_sessions u df)
          = Z.of_nat (length (filter (λ s, funnel_stage s = "completed_purchase")
                                (sessions_of u df)))) as Hp.
  { rewrite Hperm.
    apply (Zsum_indicator_gen (λ s, funnel_stage s = "completed_purchase")). }
  pose proof (length_filter (λ s, funnel_stage s = "completed_purchase")
                (sessions_of u df)) as Hle.
  assert (length (sf_session_id <$> ordered_sessions u df)
          = length (sessions_of u df)) as Hlen
    by (rewrite length_fmap; by apply Permutation_length).
  assert (Spark.Zsum (session_duration_seconds <$> ordered_sessions u df)
          = Spark.Zsum (session_duration_seconds <$> sessions_of u df)) as Hdur
    by (apply Zsum_Permutation; by apply fmap_Permutation).
  assert (sessions_of u df ≠ []) as Hne.
  { apply list_elem_of_fmap in Hu as (s & -> & Hs). intros Hnil.
    assert (s ∈ sessions_of (sf_user_id s) df) as Hin by by apply list_elem_of_filter.
    rewrite Hnil in Hin. by apply elem_of_nil in Hin. }
  rewrite Hp, Hlen. split_and!; [done|done|lia|lia|].
  rewrite (list_fmap_compose session_duration_seconds Some), avg_no_null.
  rewrite <- Hdur.
  destruct (ordered_sessions u df) as [|s0 rest] eqn:Hord.
  - destruct (sessions_of u df); [done|]. cbn [length] in Hlen. discriminate.
  - rewrite <- Hlen, !length_fmap. reflexivity.
Qed.

Lemma user_summary_purchases_and_duration_witness :
  let mine := sessions_of 1 sample_sessions in
  total_sessions sample_summary_1 = Z.of_nat (length mine) ∧
  total_purchase_sessions sample_summary_1
  = Z.of_nat (length (filter (λ s, funnel_stage s = "completed_purchase") mine)) ∧
  0 ≤ total_purchase_sessions sample_summary_1 ≤ total_sessions sample_summary_1 ∧
  avg_session_duration_seconds sample_summary_1
  = Some (inject_Z (Spark.Zsum (session_duration_seconds <$> mine))
          / inject_Z (total_sessions sample_summary_1))%Q.
Proof.
  apply (user_summary_purchases_and_duration sample_sessions sample_summary_1).
  apply (list_elem_of_lookup_2 _ 1%nat). reflexivity.
Defined.

Lemma Zsum_spec_gaps (s0 : Z) (rest : list Z) (l : Z) :
  last (s0 :: rest) = Some l →
  Spark.Zsum (spec_gaps (s0 :: rest)) = Spark.unix_timestamp l - Spark.unix_timestamp s0.
Proof.
  revert s0. induction rest as [|s1 rest IH]; intros s0 Hl.
  - cbn in Hl. injection Hl as <-. cbn. lia.
  - rewrite last_cons_cons in Hl.
    change (spec_gaps (s0 :: s1 :: rest))
      with ((Spark.unix_timestamp s1 - Spark.unix_timestamp s0) :: spec_gaps (s1 :: rest)).
    change (Spark.Zsum (?x :: ?xs)) with (x + Spark.Zsum xs).
    rewrite (IH s1 Hl). lia.
Qed.

(** X15: with two sessions or more, the average gap only depends on the
    earliest and the latest session start of the user and on the number
    of sessions: it is their distance in seconds over the number of
    sessions less one, and it is not negative. *)
Theorem avg_gap_from_first_and_last_start (df : list SessionFeatures) (row : UserSummary) :
  row ∈ _aggregate_to_user_features df →
  (2 ≤ length (sessions_of (us_user_id row) df))%nat →
  let mine := sessions_of (us_user_id row) df in
  ∃ first latest : Z,
    first ∈ sf_start <$> mine ∧ latest ∈ sf_start <$> mine ∧
    (∀ s, s ∈ mine → first ≤ sf_start s ≤ latest) ∧
    0 ≤ Spark.unix_timestamp latest - Spark.unix_timestamp first ∧
    avg_time_between_sessions_sec row
    = Some (inject_Z (Spark.unix_timestamp latest - Spark.unix_timestamp first)
            / inject_Z (Z.of_nat (pred (length mine))))%Q.
Proof.
  intros (u & -> & Hu)%user_features_elem_of.
  cbn [us_user_id user_summary avg_time_between_sessions_sec]. intros Hlen.
  pose proof (ordered_sessions_Permutation u df) as Hperm.
  pose proof (ordered_sessions_sorted u df) as Hs.
  assert (length (ordered_sessions u df) = length (sessions_of u df)) as Hl
    by by rewrite Hperm.
  rewrite start_gap_spec.
  assert (sf_start <$> ordered_sessions u df ≡ₚ sf_start <$> sessions_of u df) as Hps
    by by rewrite Hperm.
  destruct (ordered_sessions u df) as [|s0 [|s1 rest]] eqn:Hord;
    [cbn in Hl; lia..|].
  rewrite avg_skips_first_null.
  set (starts := sf_start <$> s0 :: s1 :: rest) in *.
  destruct (last starts) as [latest|] eqn:Hlast; [|by apply last_None in Hlast].
  assert (∀ t, t ∈ starts → sf_start s0 ≤ t ≤ latest) as Hbound.
  { intros t Ht. split; [|by apply (Sorted_last_max starts)].
    apply list_elem_of_lookup in Ht as [j Hj].
    apply (Sorted_lookup_le starts 0 j); [done|lia|done..]. }
  exists (sf_start s0), latest. split_and!.
  - rewrite <- Hps. left.
  - rewrite <- Hps. by apply last_Some_elem_of.
  - intros s Hin. apply Hbound. rewrite Hps. apply list_elem_of_fmap. eauto.
  - pose proof (unix_timestamp_mono (sf_start s0) latest).
    assert (sf_start s0 ≤ latest) by (apply Hbound; left). lia.
  - pose proof (spec_gaps_length starts) as Hgl.
    unfold starts in Hgl at 2. rewrite length_fmap, Hl in Hgl.
    destruct (spec_gaps starts) as [|g gs] eqn:Hg.
    { cbn [length] in Hgl. lia. }
    rewrite Hgl, <- Hg. unfold starts at 1. rewrite fmap_cons.
    rewrite (Zsum_spec_gaps _ _ latest); [done|]. exact Hlast.
Qed.

Lemma avg_gap_from_first_and_last_start_witness :
  let mine := sessions_of 1 sample_sessions in
  ∃ first latest : Z,
    first ∈ sf_start <$> mine ∧ latest ∈ sf_start <$> mine ∧
    (∀ s, s ∈ mine → first ≤ sf_start s ≤ latest) ∧
    0 ≤ Spark.unix_timestamp latest - Spark.unix_timestamp first ∧
    avg_time_between_sessions_sec sample_summary_1
    = Some (inject_Z (Spark.unix_timestamp latest - Spark.unix_timestamp first)
            / inject_Z (Z.of_nat (pred (length mine))))%Q.
Proof.
  apply (avg_gap_from_first_and_last_start sample_sessions sample_summary_1).
  - apply (list_elem_of_lookup_2 _ 1%nat). reflexivity.
  - vm_compute. lia.
Defined.

(** ** [run] as a whole *)

(** From line 137 on, given a cleaned DataFrame, [run] ends in an error,
    after no action when the timeout key is missing and after the count
    of the sessionized events otherwise. *)
Lemma run_after_load (self : Config) (df : list Event) :
  (∀ a, a ∈ actions (run self df) → a = Count (length df)) ∧
  (∃ e, outcome (run self df) = Err e) ∧
  run self df
  = match session_timeout_seconds self with
    | None => MkRun [] (Err (KeyError "session_timeout_seconds"))
    | Some _ =>
        MkRun [Count (length df)]
          (Err (AnalysisException "DATATYPE_MISMATCH.UNEXPECTED_INPUT_TYPE"))
    end.
Proof.
  assert (run self df
          = match session_timeout_seconds self with
            | None => MkRun [] (Err (KeyError "session_timeout_seconds"))
            | Some _ =>
                MkRun [Count (length df)]
                  (Err (AnalysisException "DATATYPE_MISMATCH.UNEXPECTED_INPUT_TYPE"))
            end) as Hrun.
  { destruct (session_timeout_seconds self) as [session_timeout|] eqn:Hc.
    - unfold run. rewrite (sessionize_events_ok _ _ _ Hc).
      cbn [mbind run_bind lift outcome actions app act].
      unfold _aggregate_to_session_features, funnel_stage_column.
      cbn. by rewrite sessionized_length.
    - by apply run_missing_timeout. }
  rewrite Hrun. destruct (session_timeout_seconds self); cbn [actions outcome].
  - split_and!; [|eauto|done]. by intros a ->%list_elem_of_singleton.
  - split_and!; [|eauto|done]. by intros a ?%elem_of_nil.
Qed.

(** ** [_load_and_clean_data] *)

Lemma clean_row_Some (to_timestamp : string → option Z) (r : RawEvent) (e : Event) :
  clean_row to_timestamp r = Some e
  ↔ ∃ text ts u,
      raw_event_time r = Some text ∧ to_timestamp text = Some ts ∧
      raw_user_id r = Some u ∧
      e = {| event_type := raw_event_type r; product_id := raw_product_id r;
             category_id := raw_category_id r; category_code := raw_category_code r;
             brand := raw_brand r; price := raw_price r;
             user_id := u; event_timestamp := ts |}.
Proof.
  unfold clean_row. split.
  - destruct (raw_event_time r) as [text|]; [|done]. cbn.
    destruct (to_timestamp text) as [ts|] eqn:Hts; [|done]. cbn.
    destruct (raw_user_id r) as [u|]; [|done]. cbn.
    intros [= <-]. by exists text, ts, u.
  - intros (text & ts & u & -> & Ht & -> & ->). cbn. by rewrite Ht.
Qed.

Lemma ROW_LIMIT_value : Z.of_nat ROW_LIMIT = 1000000.
Proof. unfold ROW_LIMIT. by rewrite Z2Nat.id. Qed.

(** X17: when the source file exists, every row of the cleaned DataFrame comes
    from a row of the file that has a [user_id] and an [event_time] that
    parses, with the other columns unchanged; there are at most 1,000,000
    of them and no more than the file has; and when the file has no more
    than 1,000,000 rows, every such row of the file is kept. *)
Theorem load_and_clean_keeps_valid_rows (to_timestamp : string → option Z)
    (limit : nat → list RawEvent → list RawEvent)
    (path : string) (files : string → option (list RawEvent)) (rows : list RawEvent) :
  limit_spec limit →
  files path = Some rows →
  ∃ df,
    _load_and_clean_data to_timestamp limit (Some path) files = Ok (Cleaned df) ∧
    Z.of_nat (length df) ≤ 1000000 ∧
    (length df ≤ length rows)%nat ∧
    (∀ e, e ∈ df →
       ∃ r text ts u,
         r ∈ rows ∧
         raw_event_time r = Some text ∧ to_timestamp text = Some ts ∧
         raw_user_id r = Some u ∧
         e = {| event_type := raw_event_type r; product_id := raw_product_id r;
                category_id := raw_category_id r; category_code := raw_category_code r;
                brand := raw_brand r; price := raw_price r;
                user_id := u; event_timestamp := ts |}) ∧
    ((length rows ≤ ROW_LIMIT)%nat →
     ∀ r text ts u,
       r ∈ rows →
       raw_event_time r = Some text → to_timestamp text = Some ts →
       raw_user_id r = Some u →
       {| event_type := raw_event_type r; product_id := raw_product_id r;
          category_id := raw_category_id r; category_code := raw_category_code r;
          brand := raw_brand r; price := raw_price r;
          user_id := u; event_timestamp := ts |} ∈ df).
Proof.
  intros Hlimit Hfile. eexists. split.
  { unfold _load_and_clean_data. cbn. by rewrite Hfile. }
  destruct (Hlimit ROW_LIMIT rows) as [Hsub Hlen].
  pose proof (omap_length_le (clean_row to_timestamp) (limit ROW_LIMIT rows)) as Hle.
  split_and!.
  - rewrite <- ROW_LIMIT_value. lia.
  - lia.
  - intros e (r & Hr & (text & ts & u & ? & ? & ? & ?)%clean_row_Some)%list_elem_of_omap.
    exists r, text, ts, u. split_and!; try done. by apply (elem_of_submseteq _ _ _ Hr).
  - intros Hsmall r text ts u Hr Htext Hts Hu.
    apply list_elem_of_omap. exists r. split.
    + assert (limit ROW_LIMIT rows ≡ₚ rows) as ->; [|done].
      apply submseteq_length_Permutation; [done|lia].
    + apply clean_row_Some. by exists text, ts, u.
Qed.

Lemma load_and_clean_keeps_valid_rows_witness :
  ∃ df,
    _load_and_clean_data sample_to_timestamp take (Some "data/events.csv") sample_files
    = Ok (Cleaned df) ∧
    Z.of_nat (length df) ≤ 1000000 ∧
    (length df ≤ length sample_raw_rows)%nat ∧
    (∀ e, e ∈ df →
       ∃ r text ts u,
         r ∈ sample_raw_rows ∧
         raw_event_time r = Some text ∧ sample_to_timestamp text = Some ts ∧
         raw_user_id r = Some u ∧
         e = {| event_type := raw_event_type r; product_id := raw_product_id r;
                category_id := raw_category_id r; category_code := raw_category_code r;
                brand := raw_brand r; price := raw_price r;
                user_id := u; event_timestamp := ts |}) ∧
    ((length sample_raw_rows ≤ ROW_LIMIT)%nat →
     ∀ r text ts u,
       r ∈ sample_raw_rows →
       raw_event_time r = Some text → sample_to_timestamp text = Some ts →
       raw_user_id r = Some u →
       {| event_type := raw_event_type r; product_id := raw_product_id r;
          category_id := raw_category_id r; category_code := raw_category_code r;
          brand := raw_brand r; price := raw_price r;
          user_id := u; event_timestamp := ts |} ∈ df).
Proof.
  apply (load_and_clean_keeps_valid_rows sample_to_timestamp take "data/events.csv"
           sample_files sample_raw_rows).
  - intros n l. split; [apply submseteq_take|apply length_take].
  - reflexivity.
Defined.

(** On the sample file, two of the five rows survive the cleaning. *)
Example sample_load :
  _load_and_clean_data sample_to_timestamp take (Some "data/events.csv") sample_files
  = Ok (Cleaned [ev 1 30 "cart"; ev 1 0 "view"]).
Proof. vm_compute. reflexivity. Qed.

(** ** [run] from its first line *)

(** X16: [run] never writes or shows a table and never reaches its last
    line.  It raises a [KeyError] when the source path or the timeout is
    missing from the configuration, leaves through [sys.exit(1)] when the
    source file does not exist, and otherwise raises when the
    [funnel_stage] column is built; its only action, in that last case, is
    the count of the cleaned events. *)
Theorem run_never_writes (to_timestamp : string → option Z)
    (limit : nat → list RawEvent → list RawEvent)
    (source_path : option string) (files : string → option (list RawEvent))
    (self : Config) :
  let r := run_from_source to_timestamp limit source_path files self in
  (∀ a, a ∈ whole_actions r → ∃ n, a = Count n) ∧
  ending r ≠ Returned ∧
  r = match source_path with
      | None => MkWholeRun [] (Raised (KeyError "source_path"))
      | Some path =>
          match files path with
          | None => MkWholeRun [] (Exited 1)
          | Some rows =>
              match session_timeout_seconds self with
              | None => MkWholeRun [] (Raised (KeyError "session_timeout_seconds"))
              | Some _ =>
                  MkWholeRun
                    [Count (length (omap (clean_row to_timestamp) (limit ROW_LIMIT rows)))]
                    (Raised (AnalysisException "DATATYPE_MISMATCH.UNEXPECTED_INPUT_TYPE"))
              end
          end
      end.
Proof.
  cbn zeta.
  assert (run_from_source to_timestamp limit source_path files self
          = match source_path with
            | None => MkWholeRun [] (Raised (KeyError "source_path"))
            | Some path =>
                match files path with
                | None => MkWholeRun [] (Exited 1)
                | Some rows =>
                    match session_timeout_seconds self with
                    | None => MkWholeRun [] (Raised (KeyError "session_timeout_seconds"))
                    | Some _ =>
                        MkWholeRun
                          [Count (length (omap (clean_row to_timestamp)
                                            (limit ROW_LIMIT rows)))]
                          (Raised (AnalysisException
                                     "DATATYPE_MISMATCH.UNEXPECTED_INPUT_TYPE"))
                    end
                end
            end) as Hrun.
  { unfold run_from_source, _load_and_clean_data.
    destruct source_path as [path|]; [|done]. cbn.
    destruct (files path) as [rows|]; [|done].
    destruct (run_after_load self (omap (clean_row to_timestamp) (limit ROW_LIMIT rows)))
      as (_ & _ & ->).
    by destruct (session_timeout_seconds self). }
  rewrite Hrun.
  destruct source_path as [path|]; [destruct (files path) as [rows|];
    [destruct (session_timeout_seconds self)|]|];
    cbn [whole_actions ending]; (split_and!; [|done..]).
  - intros a ->%list_elem_of_singleton. eauto.
  - by intros a ?%elem_of_nil.
  - by intros a ?%elem_of_nil.
  - by intros a ?%elem_of_nil.
Qed.

(** The sample file is cleaned and counted, then [run] raises. *)
Example sample_run_from_source :
  run_from_source sample_to_timestamp take (Some "data/events.csv") sample_files
    (cfg (Some 1800))
  = MkWholeRun [Count 2]
      (Raised (AnalysisException "DATATYPE_MISMATCH.UNEXPECTED_INPUT_TYPE")).
Proof. vm_compute. reflexivity. Qed.

(** ** The [day_of_week] column *)

Lemma columns_before_funnel_elem_of (df : list SessionizedEvent) (c : SessionColumns) :
  c ∈ columns_before_funnel df
  ↔ ∃ a, c = derived_columns a ∧ a ∈ session_features_df df.
Proof. unfold columns_before_funnel. apply list_elem_of_fmap. Qed.

(** The rows of [final_df], were the last column to resolve, carry the
    columns of lines 95-98 unchanged. *)
Lemma with_features_derived_columns (funnel : list string → string) (a : SessionAgg) :
  sf_agg (with_features funnel a) = sc_agg (derived_columns a) ∧
  session_duration_seconds (with_features funnel a)
  = sc_session_duration_seconds (derived_columns a) ∧
  hour_of_day (with_features funnel a) = sc_hour_of_day (derived_columns a) ∧
  day_of_week (with_features funnel a) = sc_day_of_week (derived_columns a).
Proof. done. Qed.

(** C10, what the code does: line 98 builds [day_of_week] as
    [dayofweek(session_start_time)], for every session of the input the
    number from 1 to 7 of the UTC day of the session's earliest event, in
    the numbering 1 = Sunday .. 7 = Saturday (5 on Thursday 1970-01-01, 1
    on Sunday 1970-01-04, the next number, from 7 back to 1, on each
    following day); but [_aggregate_to_session_features] then raises on
    the [funnel_stage] column for every input, so no row with this field
    is returned. *)
Theorem C10_day_of_week_built_not_returned (df : list SessionizedEvent) :
  _aggregate_to_session_features df
  = Err (AnalysisException "DATATYPE_MISMATCH.UNEXPECTED_INPUT_TYPE") ∧
  (∀ r, r ∈ df → ∃ c, c ∈ columns_before_funnel df ∧ sc_key c = session_key r) ∧
  (∀ c, c ∈ columns_before_funnel df →
     1 ≤ sc_day_of_week c ≤ 7 ∧
     ∃ r, r ∈ df ∧ session_key r = sc_key c ∧
          (∀ r', r' ∈ df → session_key r' = sc_key c →
             event_timestamp (sz_event r) ≤ event_timestamp (sz_event r')) ∧
          sc_day_of_week c = Spark.dayofweek (event_timestamp (sz_event r))) ∧
  (∀ ts ts', Spark.epoch_day ts = Spark.epoch_day ts' →
     Spark.dayofweek ts = Spark.dayofweek ts') ∧
  Spark.dayofweek 0 = 5 ∧
  Spark.dayofweek (3 * Spark.MICROS_PER_DAY) = 1 ∧
  (∀ ts, Spark.dayofweek (ts + Spark.MICROS_PER_DAY) = Spark.dayofweek ts `mod` 7 + 1).
Proof.
  split; [done|]. split; [|split; [|repeat apply conj; try done]].
  - intros r Hr.
    assert (session_key r ∈ session_key <$> df) as Hk
      by (apply list_elem_of_fmap; eauto).
    destruct (aggregate_group (session_key r) (session_rows (session_key r) df))
      as [a|] eqn:Ha.
    + exists (derived_columns a). split.
      * apply columns_before_funnel_elem_of. exists a. split; [done|].
        apply session_features_df_elem_of. eauto.
      * by apply aggregate_group_Some in Ha as [? _].
    + apply aggregate_group_None in Ha.
      by destruct (session_rows_nonempty df _ Hk).
  - intros c (a & -> & (k & Hk & Ha)%session_features_df_elem_of)%columns_before_funnel_elem_of.
    apply aggregate_group_Some in Ha
      as (Hkey & _ & _ & Hbound & (r & Hr & Hstart) & _).
    split; [apply dayofweek_range|].
    apply session_rows_elem_of in Hr as [Hrk Hr].
    exists r. unfold sc_key. cbn [derived_columns sc_agg sc_day_of_week].
    split_and!; [done|congruence| |].
    + intros r' Hr' Hk'. rewrite Hstart.
      apply Hbound, session_rows_elem_of. split; [congruence|done].
    + unfold day_of_week_column. by rewrite Hstart.
  - intros ts ts' Hd. unfold Spark.dayofweek. by rewrite Hd.
  - apply dayofweek_next_day.
Qed.
